(** * scmdb_py_dev: the content pipeline of [team/content.py]

    A shallow embedding of the data-query helpers and of the control
    skeleton of the plot generators of [content.py], together with the
    properties the specification states about them.

    Conventions of the embedding.
    - A Python [float] is an IEEE-754 binary64 value, modelled by the
      Standard Library's [spec_float]; comparisons are [SFcompare], so a
      NaN compares false with everything, as in Python.
    - A function whose Python return type varies ([None], a [bool], a
      [list], a [dict], an exception class ...) returns a [pyval].
    - A call has an [outcome]: it returns a value or raises an exception.
      What it prints, how long it sleeps and which SQL statements it
      executes are recorded in a list of [event]s.
    - A Python [str] is a string of ASCII characters; the string methods
      are modelled on ASCII.
    - The file system, the SQLite databases, the clock and the libraries'
      random choices are read from a [World].  So is the order in which
      a sort of numpy leaves rows of equal key: pandas sorts with numpy's
      quicksort, which is not stable.
    - [@cache.memoize] is transparent for a fixed world and is omitted. *)

From Stdlib Require Import ZArith List String Ascii Bool Lia.
From Stdlib Require Import Permutation Sorted.
From Stdlib Require Import SpecFloat DecimalString.
Import ListNotations.
Open Scope string_scope.
Open Scope Z_scope.
Set Warnings "-register-all".

(** * Part I: the embedding *)

(** ** Python floats *)

Definition float : Set := spec_float.

Module Float64.

Definition is_nan (f : float) : bool :=
  match f with S754_nan => true | _ => false end.

(** [a < b], [a > b] and [a <= b] of Python floats. *)
Definition ltb (a b : float) : bool := SFltb a b.
Definition gtb (a b : float) : bool :=
  match SFcompare a b with Some Gt => true | _ => false end.
Definition leb (a b : float) : bool := SFleb a b.

(** binary64 arithmetic, used by the medians. *)
Definition add (a b : float) : float := SFadd 53 1024 a b.
Definition div (a b : float) : float := SFdiv 53 1024 a b.
Definition two : float := S754_finite false 4503599627370496 (-51).

(** The float literal [0.99]. *)
Definition q99 : float := S754_finite false 8917127262193582 (-53).

(** The position of a non-NaN float in the order [SFcompare] decides:
    sign class first, then exponent, then mantissa. *)
Definition key (f : float) : Z * Z * Z :=
  match f with
  | S754_nan => (0, 0, 0)
  | S754_zero _ => (0, 0, 0)
  | S754_infinity true => (-2, 0, 0)
  | S754_infinity false => (2, 0, 0)
  | S754_finite true m e => (-1, - e, Zneg m)
  | S754_finite false m e => (1, e, Zpos m)
  end.

Definition lex3 (x y : Z * Z * Z) : comparison :=
  let '(x1, x2, x3) := x in
  let '(y1, y2, y3) := y in
  match x1 ?= y1 with
  | Eq => match x2 ?= y2 with
          | Eq => x3 ?= y3
          | c => c
          end
  | c => c
  end.

(** The order pandas sorts a numeric column in: ascending, NaN last. *)
Definition sort_le (a b : float) : bool :=
  is_nan b || (negb (is_nan a) && leb a b).

(** Equality of two keys in a hash table of pandas: [a == b], and NaN
    equals NaN. *)
Definition eqb (a b : float) : bool :=
  SFeqb a b || (is_nan a && is_nan b).

End Float64.

(** ** Python values, exceptions and effects *)

Inductive exn : Set :=
| FailToGraphException
| TypeError
| KeyError
| IndexError
| NameError
| StopIteration
| OperationalError
| RecursionError
| ValueError
| DataError.

Definition exn_eqb (a b : exn) : bool :=
  match a, b with
  | FailToGraphException, FailToGraphException
  | TypeError, TypeError
  | KeyError, KeyError
  | IndexError, IndexError
  | NameError, NameError
  | StopIteration, StopIteration
  | OperationalError, OperationalError
  | RecursionError, RecursionError
  | ValueError, ValueError
  | DataError, DataError => true
  | _, _ => false
  end.

(** A dynamically typed Python value.  A [dict] keeps insertion order. *)
Inductive pyval : Type :=
| PyNone
| PyBool (b : bool)
| PyInt (z : Z)
| PyFloat (f : float)
| PyStr (s : string)
| PyList (l : list pyval)
| PyDict (d : list (string * pyval))
| PyExcClass (e : exn).

Definition pydict := list (string * pyval).

(** [d[k] = v]: replaces the value of an existing key, appends a new one. *)
Fixpoint dict_set (d : pydict) (k : string) (v : pyval) : pydict :=
  match d with
  | [] => [(k, v)]
  | (k', v') :: d' =>
      if String.eqb k k' then (k, v) :: d' else (k', v') :: dict_set d' k v
  end.


(** What a call does besides computing its result. *)
Inductive event : Type :=
| Print (line : string)
| Sleep (seconds : Z)
| Execute (sql param : string)
| Generate (num : Z).

Inductive outcome (A : Type) : Type :=
| Return (a : A)
| Raise (e : exn).
Arguments Return {A} a.
Arguments Raise {A} e.

Record run (A : Type) : Type := Run { trace : list event; result : outcome A }.
Arguments Run {A} trace result.
Arguments trace {A} r.
Arguments result {A} r.

Definition ret {A} (a : A) : run A := Run [] (Return a).
Definition raise {A} (e : exn) : run A := Run [] (Raise e).
Definition emit (ev : event) : run unit := Run [ev] (Return tt).
Definition lift {A} (o : outcome A) : run A := Run [] o.

Definition bind {A B} (m : run A) (k : A -> run B) : run B :=
  match result m with
  | Return a => let r := k a in Run (trace m ++ trace r) (result r)
  | Raise e => Run (trace m) (Raise e)
  end.

(** The outcome of a [try] block, handed to the [except] clauses. *)
Definition attempt {A} (m : run A) : run (outcome A) :=
  Run (trace m) (Return (result m)).

Notation "x <- m ;; k" := (bind m (fun x => k))
  (at level 61, m at next level, right associativity).
Notation "m ;;; k" := (bind m (fun _ => k))
  (at level 61, right associativity).

(** A loop body applied to each element in turn, threading an accumulator
    and stopping at the first exception. *)
Fixpoint for_each {A S} (body : S -> A -> run S) (l : list A) (s : S) : run S :=
  match l with
  | [] => ret s
  | x :: l' => s' <- body s x ;; for_each body l' s'
  end.

(** A stable sort, for the [ORDER BY] of SQLite and the sorted values a
    median is read from: each element is inserted into the sorted rest,
    before the first element it may precede, so elements with equal keys
    keep their order. *)
Fixpoint insert_by {A} (before : A -> A -> bool) (r : A) (l : list A) : list A :=
  match l with
  | [] => [r]
  | x :: l' => if before r x then r :: l else x :: insert_by before r l'
  end.

Definition sort_by {A} (before : A -> A -> bool) (l : list A) : list A :=
  fold_right (insert_by before) [] l.

(** [frame.take(indexer)]: the rows at the positions of the indexer.  An
    indexer that [argsort] computes holds positions of the frame only. *)
Definition take {A} (rows : list A) (indexer : list nat) : list A :=
  flat_map (fun i => match nth_error rows i with Some r => [r] | None => [] end)
           indexer.

(** [sort_values] on one column, as [nargsort] does it with
    [na_position='last']: the rows that have a key are taken in the order
    [argsort] gives for their keys, the rows without one follow in the
    order they had. *)
Definition sort_rows {A K} (isna : A -> bool) (key : A -> K)
    (argsort : list K -> list nat) (rows : list A) : list A :=
  let present := filter (fun r => negb (isna r)) rows in
  (take present (argsort (map key present)) ++ filter isna rows)%list.

(** The distinct elements of a list in order of first appearance, as
    [unique] and [factorize] of pandas find them. *)
Fixpoint distinct {K} (eqb : K -> K -> bool) (l : list K) : list K :=
  match l with
  | [] => []
  | k :: l' => k :: filter (fun k' => negb (eqb k' k)) (distinct eqb l')
  end.

(** ** Strings *)

(** [needle in hay] *)
Fixpoint contains (needle hay : string) : bool :=
  String.prefix needle hay ||
  match hay with
  | EmptyString => false
  | String _ hay' => contains needle hay'
  end.

(** The whitespace of [str.split()] in ASCII: tab to carriage return, the
    separators U+001C to U+001F and the space. *)
Definition is_space (c : ascii) : bool :=
  let n := nat_of_ascii c in
  ((Nat.leb 9 n && Nat.leb n 13) || (Nat.leb 28 n && Nat.leb n 32))%bool.

(** [s.split()]: the maximal runs of non-whitespace characters. *)
Fixpoint split_from (cur : string) (s : string) : list string :=
  let flush := match cur with EmptyString => [] | _ => [cur] end in
  match s with
  | EmptyString => flush
  | String c s' =>
      if is_space c then flush ++ split_from EmptyString s'
      else split_from (cur ++ String c EmptyString) s'
  end.
Definition split (s : string) : list string := split_from EmptyString s.

(** [str(x)] of a value that is a string or [None], as [format] prints it. *)
Definition str_of (g : option string) : string :=
  match g with Some s => s | None => "None" end.

(** [not x] for a value that is a string or [None]. *)
Definition falsy (g : option string) : bool :=
  match g with Some EmptyString | None => true | Some _ => false end.

Definition lower (c : ascii) : ascii :=
  let n := nat_of_ascii c in
  if (Nat.leb 65 n && Nat.leb n 90)%bool then ascii_of_nat (n + 32) else c.

(** SQLite's [LIKE]: [%] matches any run of characters, [_] any single
    one, letters of ASCII without regard to case. *)
Fixpoint like (pat s : string) : bool :=
  match pat with
  | EmptyString => match s with EmptyString => true | _ => false end
  | String p pat' =>
      if Ascii.eqb p "%" then
        (fix star (t : string) : bool :=
           like pat' t ||
           match t with
           | EmptyString => false
           | String _ t' => star t'
           end) s
      else
        match s with
        | EmptyString => false
        | String c s' =>
            (Ascii.eqb p "_" || Ascii.eqb (lower p) (lower c)) && like pat' s'
        end
  end.

(** ** The data files and databases *)

(** A row of [gene_names]; [gene_columns] holds the columns the code never
    names. *)
Record gene_name_row : Type := GeneName
  { geneID : string; geneName : string; gene_columns : pydict }.

(** A row of [orthologs]; a SQL [NULL] is [None]. *)
Record ortholog_row : Set := Ortholog
  { mmu_gID : option string; hsa_gID : option string }.

(** A row of [corr_genes]. *)
Record corr_row : Set := Corr
  { Gene1 : string; Gene2 : string; Correlation : float }.

(** An opened SQLite file.  A table that is [None] does not exist in the
    file: a statement over it fails with [sqlite3.OperationalError]. *)
Record database : Type := Database
  { gene_names : option (list gene_name_row);
    orthologs : option (list ortholog_row);
    corr_genes : option (list corr_row) }.

(** A row of [tsne_points_ordered.tsv] as [csv.DictReader] yields it,
    restricted to the columns [get_gene_methylation] selects; a file
    without one of them would make the selection raise [KeyError]. *)
Record cluster_point : Set := ClusterPoint
  { cp_samp : string;
    cp_tsne_x : string;
    cp_tsne_y : string;
    cp_cluster_label : string;
    cp_cluster_name : string;
    cp_cluster_ordered : string;
    cp_cluster_ortholog : string }.

(** A cell of a column of a frame.  [pandas.read_csv] infers the type of a
    column from its text: integers when every field is one, floats when
    every field is a number, booleans, and strings otherwise. *)
Inductive cell : Set :=
| CInt (z : Z)
| CFloat (f : float)
| CBool (b : bool)
| CStr (s : string).

Inductive dtype : Set := int64 | float64 | bool_ | object.

Definition is_int (c : cell) : bool :=
  match c with CInt _ => true | _ => false end.

Definition is_number (c : cell) : bool :=
  match c with CInt _ | CFloat _ => true | _ => false end.

Definition is_bool (c : cell) : bool :=
  match c with CBool _ => true | _ => false end.

(** The type of a column that holds these cells; it is also the type
    [DataFrame.append] gives the column of the concatenated frames. *)
Definition dtype_of (column : list cell) : dtype :=
  match column with
  | [] => object
  | _ =>
      if forallb is_int column then int64
      else if forallb is_number column then float64
      else if forallb is_bool column then bool_
      else object
  end.

(** [s == c] for a string and a cell: only a string equals a string. *)
Definition str_eqb (s : string) (c : cell) : bool :=
  match c with CStr t => String.eqb t s | _ => false end.

(** A row of a per-gene methylation file, read with
    [names=['gene', 'samp', 'original', 'normalized']]; the last two
    columns hold numbers. *)
Record mch_row : Set := Mch
  { m_gene : string; m_samp : cell; m_original : float; m_normalized : float }.

(** A record of the merged frame, as [to_dict('records')] returns it. *)
Record point : Set := Point
  { samp : string;
    tsne_x : string;
    tsne_y : string;
    cluster_label : string;
    cluster_name : string;
    cluster_ordered : float;
    cluster_ortholog : string;
    original : float;
    normalized : float }.

(** A value of a column of the records, a string or a number; the groups
    of [groupby] are labelled with the values of the column grouped on. *)
Inductive scalar : Set :=
| Str (s : string)
| Num (f : float).

(** A missing value: [groupby] leaves out the rows whose key is one. *)
Definition isna (l : scalar) : bool :=
  match l with Num f => Float64.is_nan f | Str _ => false end.

(** Equality of two keys in a hash table of pandas. *)
Definition scalar_eqb (a b : scalar) : bool :=
  match a, b with
  | Str x, Str y => String.eqb x y
  | Num x, Num y => Float64.eqb x y
  | _, _ => false
  end.

(** A pandas frame whose columns are aligned with an index of labels. *)
Record frame : Set := Frame
  { index : list scalar; columns : list (string * list float) }.

(** Everything the program reads from outside itself.  A path for which
    [isfile] holds can be opened and parsed, except where the code itself
    expects an [IOError] or [FileNotFoundError] ([open_tsv], [read_csv]).
    The last fields are library routines whose arithmetic or rendering is
    not modelled. *)
Record World : Type := MkWorld
  { DATA_DIR : string;
    (** [str(datetime.datetime.now())] *)
    now : string;
    isdir : string -> bool;
    isfile : string -> bool;
    (** the triples [(root, dirs, files)] of [os.walk], top down *)
    os_walk : string -> list (string * list string * list string);
    glob_glob : string -> list string;
    (** [sqlite3.connect]; [None] when the file cannot be opened *)
    sqlite3_connect : string -> option database;
    (** [list(csv.DictReader(open(path)))]; [None] on [IOError] *)
    open_tsv : string -> option (list cluster_point);
    (** [pandas.read_csv]; [None] on [FileNotFoundError] *)
    read_csv : string -> option (list mch_row);
    (** the rows [csv.DictReader] yields for a metadata file *)
    csv_DictReader : string -> list (list (string * string));
    (** the binding of the module global [trace_colors] at the n-th
        attempt of [randomize_cluster_colors]; [None] while no call of
        [get_cluster_plot] has defined it *)
    trace_colors : nat -> option pydict;
    (** the colours [generate_cluster_colors] draws at random *)
    generate_cluster_colors : Z -> outcome (list string);
    json_dumps : pyval -> string;
    to_numeric : string -> float;
    (** [Series.quantile] over the non-NaN values of a column *)
    quantile : list float -> float -> float;
    (** [numpy.argsort] with its default quicksort, on the values of a
        numeric column without NaN and on the codes of a categorical
        column: the positions of the keys in ascending order of the keys,
        equal keys in an order of numpy's choosing *)
    argsort : list float -> list nat;
    argsort_codes : list Z -> list nat;
    (** the exception the installed pandas raises for the median of a
        column of strings: [DataError], or [TypeError] in later versions *)
    median_of_strings : exn;
    (** the part of a plot generator that follows its emptiness check *)
    plotly_heatmap_two_species : frame -> frame -> string -> string -> bool -> outcome string;
    plotly_box : list point -> string -> string -> outcome string }.

(** ** Routes and existence checks *)

Fixpoint get_metadata_dirs (w : World) (dataset_path dataset : string)
    (dirs : list string) : option string :=
  match dirs with
  | [] => None
  | dir :: dirs' =>
      let meta_path :=
        dataset_path ++ "/" ++ dir ++ "/" ++ dataset ++ "/metadata.csv" in
      if isfile w meta_path then
        let rows := csv_DictReader w meta_path in
        Some (json_dumps w
                (PyDict [("data",
                          PyList (map (fun row =>
                                         PyDict (map (fun kv => (fst kv, PyStr (snd kv))) row))
                                      rows))]))
      else get_metadata_dirs w dataset_path dataset dirs'
  end.

Definition get_metadata (w : World) (dataset : string) : string :=
  let dataset_path := DATA_DIR w ++ "/datasets" in
  let none := json_dumps w (PyDict [("data", PyNone)]) in
  match os_walk w dataset_path with
  | (root, dirs, files) :: _ =>
      match get_metadata_dirs w dataset_path dataset dirs with
      | Some out => out
      | None => none
      end
  | [] => none
  end.

Definition species_exists (w : World) (species : string) : bool :=
  isdir w (DATA_DIR w ++ "/ensembles/" ++ species).

Fixpoint gene_exists_dirs (w : World) (root methylationType gene : string)
    (dirs : list string) : bool :=
  match dirs with
  | [] => false
  | dir :: dirs' =>
      match glob_glob w (root ++ "/" ++ dir ++ "/" ++ methylationType ++ "/" ++ gene ++ "*") with
      | filename :: _ =>
          match filename with
          | EmptyString => gene_exists_dirs w root methylationType gene dirs'
          | _ => true
          end
      | [] => gene_exists_dirs w root methylationType gene dirs'
      end
  end.

(** [gene] is formatted into the pattern, so a [None] reads "None". *)
Definition gene_exists (w : World) (species methylationType : string)
    (gene : option string) : pyval :=
  let datasets_path := DATA_DIR w ++ "/ensembles/" ++ species ++ "/datasets" in
  match os_walk w datasets_path with
  | (root, dirs, files) :: _ =>
      PyBool (gene_exists_dirs w root methylationType (str_of gene) dirs)
  | [] => PyNone
  end.

(** [not v] for what [gene_exists] returns. *)
Definition truthy (v : pyval) : bool :=
  match v with
  | PyBool b => b
  | PyNone => false
  | PyInt z => negb (Z.eqb z 0)
  | PyStr s => match s with EmptyString => false | _ => true end
  | PyList l => match l with [] => false | _ => true end
  | PyDict d => match d with [] => false | _ => true end
  | PyFloat f => match f with S754_zero _ => false | _ => true end
  | PyExcClass _ => true
  end.

(** ** SQL *)

Definition connect (w : World) (path : string) : run database :=
  match sqlite3_connect w path with
  | Some db => ret db
  | None => raise OperationalError
  end.

(** [cursor.execute(sql, (param,))] over a table; the rows are what the
    cursor will fetch. *)
Definition cursor_execute {R} (sql param : string) (table : option (list R))
    (select : list R -> list R) : run (list R) :=
  emit (Execute sql param) ;;;
  match table with
  | Some rows => ret (select rows)
  | None => raise OperationalError
  end.

Definition error_line (w : World) (what species : string) : string :=
  "[" ++ now w ++ "] ERROR in app: " ++ what ++ " for " ++ species.

(** [ORDER BY Correlation DESC]: a row precedes every row it is not
    below. *)
Definition order_by_correlation_desc (l : list corr_row) : list corr_row :=
  sort_by (fun r x => negb (Float64.ltb (Correlation r) (Correlation x))) l.

Definition dict_of_gene (r : gene_name_row) : pydict :=
  ("geneID", PyStr (geneID r)) :: ("geneName", PyStr (geneName r)) :: gene_columns r.

Definition no_ortholog : ortholog_row := Ortholog None None.

(** The default [str()] of the arguments of [find_orthologs]. *)
Definition no_gid : option string := Some EmptyString.

Definition opt_eqb (a : option string) (b : string) : bool :=
  match a with Some s => String.eqb s b | None => false end.

Definition find_orthologs (w : World) (mmu_gid hsa_gid : option string)
    : run ortholog_row :=
  if falsy mmu_gid && falsy hsa_gid then ret no_ortholog
  else
    conn <- connect w (DATA_DIR w ++ "/datasets/orthologs.sqlite3") ;;
    let by_mmu := negb (falsy mmu_gid) in
    let query_key := if by_mmu then "mmu_gID" else "hsa_gID" in
    let query_value := str_of (if by_mmu then mmu_gid else hsa_gid) in
    r <- attempt
           (cursor_execute ("SELECT * FROM orthologs WHERE " ++ query_key ++ "=?")
              query_value (orthologs conn)
              (filter (fun row =>
                         opt_eqb (if by_mmu then mmu_gID row else hsa_gID row)
                                 query_value))) ;;
    match r with
    | Raise OperationalError =>
        (* the handler formats [species], a name this function never binds *)
        raise NameError
    | Raise e => raise e
    | Return [] => ret no_ortholog
    | Return (row :: _) => ret row
    end.

Definition search_gene_names (w : World) (species query : string) : run pyval :=
  if negb (species_exists w species) then ret (PyList [])
  else
    conn <- connect w (DATA_DIR w ++ "/ensembles/" ++ species
                         ++ "/species/gene_names.sqlite3") ;;
    r <- attempt
           (cursor_execute "SELECT * FROM gene_names WHERE geneName LIKE ?"
              (query ++ "%") (gene_names conn)
              (filter (fun row => like (query ++ "%") (geneName row)))) ;;
    match r with
    | Raise OperationalError =>
        emit (Print (error_line w "Could not open gene_names.sqlite3" species)) ;;;
        ret (PyList [])
    | Raise e => raise e
    | Return query_results =>
        ret (PyList (firstn 50 (map (fun x => PyDict (dict_of_gene x)) query_results)))
    end.

Definition gene_id_to_name (w : World) (species : string) (query : option string)
    : run pyval :=
  if negb (species_exists w species) || falsy query then ret (PyList [])
  else
    conn <- connect w (DATA_DIR w ++ "/ensembles/" ++ species
                         ++ "/species/gene_names.sqlite3") ;;
    r <- attempt
           (cursor_execute "SELECT * FROM gene_names WHERE geneID LIKE ?"
              (str_of query ++ "%") (gene_names conn)
              (filter (fun row => like (str_of query ++ "%") (geneID row)))) ;;
    match r with
    | Raise OperationalError =>
        emit (Print (error_line w "Could not load gene_names.sqlite3" species)) ;;;
        ret PyNone
    | Raise e => raise e
    | Return [] => raise TypeError        (* [dict(None)] *)
    | Return (row :: _) => ret (PyDict (dict_of_gene row))
    end.

Definition convert_geneID_mmu_hsa (w : World) (species geneID : string)
    : run (option string) :=
  if String.eqb species "mouse_published" || String.eqb species "mmu" then
    if negb (contains "ENSMUSG" geneID) then
      mmu <- find_orthologs w no_gid (Some geneID) ;;
      o <- find_orthologs w no_gid (Some geneID) ;;
      ret (mmu_gID o)
    else ret (Some geneID)
  else
    if contains "ENSMUSG" geneID then
      gene2 <- find_orthologs w (Some geneID) no_gid ;;
      o <- find_orthologs w (Some geneID) no_gid ;;
      ret (hsa_gID o)
    else ret (Some geneID).

(** [v[k]] *)
Definition getitem (v : pyval) (k : string) : outcome pyval :=
  match v with
  | PyDict d =>
      match find (fun kv => String.eqb (fst kv) k) d with
      | Some kv => Return (snd kv)
      | None => Raise KeyError
      end
  | _ => Raise TypeError
  end.

(** [v[k] = x]; only a [dict] takes a string key. *)
Definition setitem (v : pyval) (k : string) (x : pyval) : outcome pyval :=
  match v with
  | PyDict d => Return (PyDict (dict_set d k x))
  | _ => Raise TypeError
  end.

(** The rows the statement of [get_corr_genes] selects. *)
Definition corr_query (query : string) (table : list corr_row) : list corr_row :=
  firstn 50
    (order_by_correlation_desc
       (filter (fun row => like (query ++ "%") (Gene1 row)) table)).

Definition get_corr_genes_row (w : World) (species : string)
    (acc : Z * list pyval) (item : corr_row) : run (Z * list pyval) :=
  let '(rank, table_data) := acc in
  geneInfo <- gene_id_to_name w species (Some (Gene2 item)) ;;
  geneInfo <- lift (setitem geneInfo "Rank" (PyInt rank)) ;;
  geneInfo <- lift (setitem geneInfo "Corr" (PyFloat (Correlation item))) ;;
  ret (rank + 1, (table_data ++ [geneInfo])%list).

Definition get_corr_genes (w : World) (species query : string) : run pyval :=
  conn <- connect w (DATA_DIR w ++ "/ensembles/" ++ species ++ "/top_corr_genes.sqlite3") ;;
  r <- attempt
         (cursor_execute
            "SELECT Gene2, Correlation FROM corr_genes WHERE Gene1 LIKE ? ORDER BY Correlation DESC LIMIT 50"
            (query ++ "%") (corr_genes conn) (corr_query query)) ;;
  match r with
  | Raise OperationalError =>
      emit (Print (error_line w "Could not load top_corr_genes.sqlite3" species)) ;;;
      ret (PyInt 1)
  | Raise e => raise e
  | Return query_results =>
      acc <- for_each (get_corr_genes_row w species) query_results (1, []) ;;
      ret (PyList (snd acc))
  end.

(** ** Colours *)

Definition set_color_by_percentile (this start end_ : float) : pyval :=
  if Float64.is_nan this then PyStr "grey"
  else if Float64.ltb this start then PyFloat start
  else if Float64.gtb this end_ then PyFloat end_
  else PyFloat this.


(** ** Frames: merge, sort, group *)

Definition get_cluster_points (w : World) (species : string)
    : run (option (list cluster_point)) :=
  if negb (species_exists w species) then ret None
  else
    match open_tsv w (DATA_DIR w ++ "/ensembles/" ++ species ++ "/tsne_points_ordered.tsv") with
    | Some rows => ret (Some rows)
    | None =>
        emit (Print (error_line w "Failed to load tsne data" species)) ;;;
        ret None
    end.

(** A row of the merged frame before [cluster_ordered] is made numeric. *)
Definition merged : Set := cluster_point * (float * float).

(** The rows of a left join on the sample: the rows of [cluster] in their
    order, each paired with every row of [mch] of the same sample, or with
    NaN when there is none. *)
Definition left_join (cluster : list cluster_point) (mch : list mch_row)
    : list merged :=
  flat_map
    (fun c =>
       match filter (fun m => str_eqb (cp_samp c) (m_samp m)) mch with
       | [] => [(c, (S754_nan, S754_nan))]
       | ms => map (fun m => (c, (m_original m, m_normalized m))) ms
       end)
    cluster.

(** [pandas.merge(cluster, mch, on='samp', how='left')] for a [cluster]
    that has rows.  Its key holds strings, as [csv.DictReader] yields
    them, and pandas refuses to merge a key of strings with a key of
    numbers. *)
Definition merge_left (cluster : list cluster_point) (mch : list mch_row)
    : outcome (list merged) :=
  match dtype_of (map m_samp mch) with
  | int64 | float64 => Raise ValueError
  | bool_ | object => Return (left_join cluster mch)
  end.

Definition merged_normalized (r : merged) : float := snd (snd r).

Definition to_point (w : World) (r : merged) : point :=
  let c := fst r in
  Point (cp_samp c) (cp_tsne_x c) (cp_tsne_y c) (cp_cluster_label c)
        (cp_cluster_name c) (to_numeric w (cp_cluster_ordered c))
        (cp_cluster_ortholog c) (fst (snd r)) (snd (snd r)).

Definition no_order (r : point) : bool := Float64.is_nan (cluster_ordered r).

(** [sort_values('cluster_ordered')] on a numeric column, NaN last. *)
Definition sort_values (w : World) (l : list point) : list point :=
  sort_rows no_order cluster_ordered (argsort w) l.

(** The code [astype('category')] gives a value: the categories are the
    distinct values in ascending order and the code is the position of
    the value among them, which is the number of categories below it. *)
Definition category_code (categories : list float) (v : float) : Z :=
  Z.of_nat (List.length (filter (fun c => Float64.ltb c v) categories)).

(** [sort_values(by='cluster_ordered', ascending=True)] on the column made
    categorical: the rows are sorted on their codes, NaN last. *)
Definition sort_values_category (w : World) (l : list point) : list point :=
  let categories :=
    distinct Float64.eqb
      (map cluster_ordered (filter (fun r => negb (no_order r)) l)) in
  sort_rows no_order (fun r => category_code categories (cluster_ordered r))
            (argsort_codes w) l.

(** The frames read for a gene, one per dataset directory that has a file
    for it. *)
Fixpoint read_datasets (w : World) (root methylationType gene : string)
    (dirs : list string) : list (list mch_row) :=
  match dirs with
  | [] => []
  | dir :: dirs' =>
      let rest := read_datasets w root methylationType gene dirs' in
      match glob_glob w (root ++ "/" ++ dir ++ "/" ++ methylationType ++ "/" ++ gene ++ "*") with
      | [] => rest                                  (* IndexError: continue *)
      | filename :: _ =>
          match read_csv w filename with
          | Some mch => mch :: rest
          | None => rest                            (* FileNotFoundError: continue *)
          end
      end
  end.

Definition get_gene_methylation (w : World) (species methylationType : string)
    (gene : option string) (outliers : bool) : run (list point) :=
  if negb (species_exists w species)
     || negb (truthy (gene_exists w species methylationType gene))
  then ret []
  else
    cluster <- get_cluster_points w species ;;
    let datasets_path := DATA_DIR w ++ "/ensembles/" ++ species ++ "/datasets" in
    match os_walk w datasets_path with
    | [] => raise StopIteration
    | (root, dirs, files) :: _ =>
        let dataframe_list :=
          read_datasets w root methylationType (str_of gene) dirs in
        match dataframe_list with
        | [] => ret []
        | _ =>
            let mch := List.concat dataframe_list in
            match cluster with
            | None | Some [] => raise KeyError     (* a frame without columns *)
            | Some cluster =>
                dataframe_merged <- lift (merge_left cluster mch) ;;
                let dataframe_merged :=
                  if negb outliers then
                    let three_std_dev :=
                      quantile w (map merged_normalized dataframe_merged) Float64.q99 in
                    filter (fun r => Float64.ltb (merged_normalized r) three_std_dev)
                           dataframe_merged
                  else dataframe_merged in
                ret (sort_values_category w (map (to_point w) dataframe_merged))
            end
        end
    end.

(** The median pandas computes for a group: NaN is skipped, the two middle
    values of an even count are averaged, nothing left gives NaN. *)
Definition median (vs : list float) : float :=
  let a := sort_by Float64.leb (filter (fun v => negb (Float64.is_nan v)) vs) in
  let n := List.length a in
  match n with
  | O => S754_nan
  | _ =>
      if Nat.odd n then nth (Nat.div n 2) a S754_nan
      else Float64.div
             (Float64.add (nth (Nat.div n 2) a S754_nan)
                          (nth (Nat.div n 2 - 1) a S754_nan))
             Float64.two
  end.

(** [groupby(key, sort=False)]: the rows whose key is missing are left
    out; a row joins the group of its key, a new key opens a group after
    the existing ones. *)
Fixpoint group_insert (k : scalar) (v : float) (groups : list (scalar * list float))
    : list (scalar * list float) :=
  match groups with
  | [] => [(k, [v])]
  | (k', vs) :: groups' =>
      if scalar_eqb k k' then (k', (vs ++ [v])%list) :: groups'
      else (k', vs) :: group_insert k v groups'
  end.

Definition groupby (key : point -> scalar) (val : point -> float)
    (rows : list point) : list (scalar * list float) :=
  fold_left (fun groups r => group_insert (key r) (val r) groups)
            (filter (fun r => negb (isna (key r))) rows) [].

(** The columns of the records: those that hold numbers, those that hold
    strings, and any of them as a column of labels. *)
Definition float_column (name : string) : option (point -> float) :=
  if String.eqb name "original" then Some original
  else if String.eqb name "normalized" then Some normalized
  else if String.eqb name "cluster_ordered" then Some cluster_ordered
  else None.

Definition string_column (name : string) : option (point -> string) :=
  if String.eqb name "samp" then Some samp
  else if String.eqb name "tsne_x" then Some tsne_x
  else if String.eqb name "tsne_y" then Some tsne_y
  else if String.eqb name "cluster_label" then Some cluster_label
  else if String.eqb name "cluster_name" then Some cluster_name
  else if String.eqb name "cluster_ortholog" then Some cluster_ortholog
  else None.

Definition column (name : string) : option (point -> scalar) :=
  match string_column name, float_column name with
  | Some f, _ => Some (fun r => Str (f r))
  | None, Some f => Some (fun r => Num (f r))
  | None, None => None
  end.

(** The resulting [Series]: index and values in order. *)
Definition median_cluster_mch (w : World) (gene_info : list point)
    (level cluster_type : string) : outcome (list (scalar * float)) :=
  match gene_info with
  | [] => Raise KeyError                 (* no column [cluster_ordered] *)
  | _ =>
      match column cluster_type with
      | None => Raise KeyError
      | Some key =>
          match float_column level, string_column level with
          | Some val, _ =>
              Return (map (fun g => (fst g, median (snd g)))
                          (groupby key val (sort_values w gene_info)))
          | None, Some _ => Raise (median_of_strings w)
          | None, None => Raise KeyError
          end
      end
  end.

(** The same aggregation in the words of the specification: the distinct
    cluster values in order of first appearance among the sorted rows,
    each with the median of the level values of its rows. *)
Definition median_by_cluster (w : World) (key : point -> scalar) (val : point -> float)
    (gene_info : list point) : list (scalar * float) :=
  let rows := sort_values w gene_info in
  map (fun c => (c, median (map val (filter (fun r => scalar_eqb (key r) c) rows))))
      (distinct scalar_eqb (filter (fun c => negb (isna c)) (map key rows))).

(** ** Plot generators, up to their emptiness checks *)

Definition upper_char (c : ascii) : ascii :=
  let n := nat_of_ascii c in
  if (Nat.leb 97 n && Nat.leb n 122)%bool then ascii_of_nat (n - 32) else c.

Definition is_alpha (c : ascii) : bool :=
  let n := nat_of_ascii (lower c) in (Nat.leb 97 n && Nat.leb n 122)%bool.

(** [s.upper()] and [s.title()] on ASCII. *)
Fixpoint upper (s : string) : string :=
  match s with
  | EmptyString => EmptyString
  | String c s' => String (upper_char c) (upper s')
  end.

Fixpoint title_from (in_word : bool) (s : string) : string :=
  match s with
  | EmptyString => EmptyString
  | String c s' =>
      String (if in_word then lower c else upper_char c) (title_from (is_alpha c) s')
  end.
Definition title (s : string) : string := title_from false s.

Definition empty_frame : frame := Frame [] [].

(** [frame.empty]: no row or no column. *)
Definition frame_empty (df : frame) : bool :=
  match index df, columns df with
  | [], _ | _, [] => true
  | _, _ => false
  end.

Fixpoint set_column (cols : list (string * list float)) (label : string)
    (vals : list float) : list (string * list float) :=
  match cols with
  | [] => [(label, vals)]
  | (l, v) :: cols' =>
      if String.eqb l label then (l, vals) :: cols'
      else (l, v) :: set_column cols' label vals
  end.

Definition series_get (s : list (scalar * float)) (k : scalar) : float :=
  match find (fun kv => scalar_eqb (fst kv) k) s with
  | Some kv => snd kv
  | None => S754_nan
  end.

(** [df[label] = series]: a frame without rows takes the index of a
    non-empty series; otherwise the series is aligned with the index. *)
Definition frame_set_series (df : frame) (label : string)
    (s : list (scalar * float)) : frame :=
  match index df, s with
  | [], _ :: _ =>
      Frame (map fst s)
            (set_column (map (fun c => (fst c, map (fun _ => S754_nan) s)) (columns df))
                        label (map snd s))
  | idx, _ => Frame idx (set_column (columns df) label (map (series_get s) idx))
  end.

(** [df[label] = nan] *)
Definition frame_set_scalar (df : frame) (label : string) (v : float) : frame :=
  Frame (index df) (set_column (columns df) label (map (fun _ => v) (index df))).

(** [gene_id_to_name(species, geneID)['geneName']] *)
Definition gene_label (w : World) (species : string) (geneID : option string)
    : run string :=
  info <- gene_id_to_name w species geneID ;;
  name <- lift (getitem info "geneName") ;;
  match name with
  | PyStr s => ret s
  | _ => raise TypeError
  end.

(** One iteration of a loop that adds the medians of a gene as a column. *)
Definition add_gene (w : World) (species methylationType level : string)
    (df : frame) (geneID : option string) : run frame :=
  label <- gene_label w species geneID ;;
  gene_info <- get_gene_methylation w species methylationType geneID true ;;
  s <- lift (median_cluster_mch w gene_info level "cluster_ortholog") ;;
  ret (frame_set_series df label s).

(** One iteration of a loop over the orthologs: a missing ortholog gives a
    column of NaN named after the column of the other species at the same
    position. *)
Definition add_ortholog (w : World) (species methylationType level : string)
    (relabel : string -> string) (other : frame)
    (acc : nat * frame) (geneID : option string) : run (nat * frame) :=
  let '(idx, df) := acc in
  df' <- (if falsy geneID then
            match nth_error (columns other) idx with
            | Some col => ret (frame_set_scalar df ("*N/A " ++ relabel (fst col)) S754_nan)
            | None => raise IndexError
            end
          else add_gene w species methylationType level df geneID) ;;
  ret (S idx, df').

(** [[f(x) for x in l]] *)
Fixpoint comprehension {A B} (f : A -> run B) (l : list A) : run (list B) :=
  match l with
  | [] => ret []
  | x :: l' => y <- f x ;; ys <- comprehension f l' ;; ret (y :: ys)
  end.

Definition get_mch_heatmap_two_species (w : World)
    (species methylationType level : string) (ptile_start ptile_end : float)
    (normalize_row : bool) (query : string) : run pyval :=
  frames <-
    (if String.eqb species "mouse_published" || String.eqb species "mmu" then
       geneID_list_mmu <- comprehension (convert_geneID_mmu_hsa w species) (split query) ;;
       geneID_list_hsa <-
         comprehension (fun geneID => o <- find_orthologs w geneID no_gid ;; ret (hsa_gID o))
                       geneID_list_mmu ;;
       gene_mch_mmu_df <-
         for_each (add_gene w "mouse_published" methylationType level)
                  geneID_list_mmu empty_frame ;;
       acc <- for_each (add_ortholog w "human_hv1_published" methylationType level
                                     upper gene_mch_mmu_df)
                       geneID_list_hsa (O, empty_frame) ;;
       ret (snd acc, gene_mch_mmu_df)
     else
       geneID_list_hsa <- comprehension (convert_geneID_mmu_hsa w species) (split query) ;;
       geneID_list_mmu <-
         comprehension (fun geneID => o <- find_orthologs w no_gid geneID ;; ret (mmu_gID o))
                       geneID_list_hsa ;;
       gene_mch_hsa_df <-
         for_each (add_gene w "human_hv1_published" methylationType level)
                  geneID_list_hsa empty_frame ;;
       acc <- for_each (add_ortholog w "mouse_published" methylationType level
                                     title gene_mch_hsa_df)
                       geneID_list_mmu (O, empty_frame) ;;
       ret (gene_mch_hsa_df, snd acc)) ;;
  let '(gene_mch_hsa_df, gene_mch_mmu_df) := frames in
  if frame_empty gene_mch_hsa_df || frame_empty gene_mch_mmu_df then
    ret (PyExcClass FailToGraphException)           (* [return], not [raise] *)
  else
    html <- lift (plotly_heatmap_two_species w gene_mch_hsa_df gene_mch_mmu_df
                    methylationType level normalize_row) ;;
    ret (PyStr html).

Definition get_mch_box (w : World) (species methylationType gene level : string)
    (outliers : bool) : run pyval :=
  gene <- convert_geneID_mmu_hsa w species gene ;;
  points <- get_gene_methylation w species methylationType gene outliers ;;
  match points with
  | [] => raise FailToGraphException
  | _ =>
      html <- lift (plotly_box w points species level) ;;
      ret (PyStr html)
  end.

(** ** An example world

    A small data directory with two ensembles.  [mouse_published] is
    complete; the databases of [human_hv1_published] are files without
    tables, as [sqlite3.connect] creates them when they are missing.
    Two variations follow it: one whose methylation file names the cells
    by numbers, one whose database files all lack their tables. *)

Module Example.

Definition zero : float := S754_zero false.
Definition one : float := S754_finite false 4503599627370496 (-52).
Definition half : float := S754_finite false 4503599627370496 (-53).
Definition of_nat (n : nat) : float :=
  binary_normalize 53 1024 (Z.of_nat n) 0 false.

Definition floor_nat (f : float) : nat :=
  match f with
  | S754_finite false m e => Z.to_nat (Z.shiftl (Zpos m) e)
  | _ => O
  end.

(** The quantile of numpy's default method: linear interpolation between
    the two closest ranks of the sorted non-NaN values. *)
Definition linear_quantile (vals : list float) (q : float) : float :=
  let a := sort_by Float64.leb
             (filter (fun v => negb (Float64.is_nan v)) vals) in
  match List.length a with
  | O => S754_nan
  | S n1 =>
      let h := SFmul 53 1024 q (of_nat n1) in
      let lo := floor_nat h in
      let hi := Nat.min (S lo) n1 in
      let g := SFsub 53 1024 h (of_nat lo) in
      let x := nth lo a S754_nan in
      let y := nth hi a S754_nan in
      let d := SFsub 53 1024 y x in
      if Float64.leb half g
      then SFsub 53 1024 y (SFmul 53 1024 d (SFsub 53 1024 one g))
      else Float64.add x (SFmul 53 1024 d g)
  end.

(** [to_numeric(..., errors='coerce')] on decimal integers; anything
    else is coerced to NaN. *)
Fixpoint digits (acc : Z) (s : string) : option Z :=
  match s with
  | EmptyString => Some acc
  | String c s' =>
      let n := nat_of_ascii c in
      if (Nat.leb 48 n && Nat.leb n 57)%bool
      then digits (10 * acc + Z.of_nat (n - 48)) s'
      else None
  end.

Definition numeric (s : string) : float :=
  match s with
  | EmptyString => S754_nan
  | _ => match digits 0 s with
         | Some z => binary_normalize 53 1024 z 0 false
         | None => S754_nan
         end
  end.

(** A serializer for the values [get_metadata] builds, for strings that
    need no escaping. *)
Definition dq : string := String (ascii_of_nat 34) EmptyString.

Fixpoint dumps (v : pyval) : string :=
  match v with
  | PyStr s => dq ++ s ++ dq
  | PyBool true => "true"
  | PyBool false => "false"
  | PyList l =>
      "[" ++ (fix items (l : list pyval) : string :=
                match l with
                | [] => EmptyString
                | [x] => dumps x
                | x :: l' => dumps x ++ ", " ++ items l'
                end) l ++ "]"
  | PyDict d =>
      "{" ++ (fix items (d : list (string * pyval)) : string :=
                match d with
                | [] => EmptyString
                | [(k, x)] => dq ++ k ++ dq ++ ": " ++ dumps x
                | (k, x) :: d' => dq ++ k ++ dq ++ ": " ++ dumps x ++ ", " ++ items d'
                end) d ++ "}"
  | _ => "null"
  end.

Definition mouse : string := "/data/ensembles/mouse_published".
Definition human : string := "/data/ensembles/human_hv1_published".
Definition gapdh : string := "ENSMUSG00000057666".
Definition gapdh_file : string :=
  "/data/ensembles/mouse_published/datasets/CEMBA_3C/mch/ENSMUSG00000057666.txt".

Definition decimal (n : nat) : string := NilEmpty.string_of_uint (Nat.to_uint n).

(** Sixty olfactory receptor genes, to have more rows than a page shows. *)
Definition olfr (n : nat) : gene_name_row :=
  GeneName ("ENSMUSG9" ++ decimal n) ("Olfr" ++ decimal n) [("chr", PyStr "7")].

Definition gene_names_db : database :=
  Database
    (Some (GeneName gapdh "Gapdh" [("chr", PyStr "6")]
           :: GeneName "ENSMUSG00000020932" "Gfap" [("chr", PyStr "11")]
           :: map olfr (seq 1 60)))
    None None.

Definition corr_db : database :=
  Database None None
    (Some (Corr gapdh "ENSMUSG00000020932" half
           :: Corr gapdh gapdh one
           :: map (fun n => Corr "ENSMUSG00000020932" (geneID (olfr n)) (of_nat n))
                  (seq 1 60))).

Definition orthologs_db : database :=
  Database None
    (Some [Ortholog (Some "ENSMUSG00000020932") (Some "ENSG00000131095");
           Ortholog (Some gapdh) None])
    None.

Definition no_tables : database := Database None None None.

Definition cluster : list cluster_point :=
  [ClusterPoint "cell_1" "0.5" "1.5" "cluster_2" "L2/3" "2" "exc";
   ClusterPoint "cell_2" "0.1" "0.2" "cluster_1" "Pv" "1" "inh";
   ClusterPoint "cell_3" "0.3" "0.4" "cluster_1" "Pv" "1" "inh"].

Definition methylation : list mch_row :=
  [Mch gapdh (CStr "cell_1") zero zero;
   Mch gapdh (CStr "cell_3") half one].

(** The same file for cells that are named by numbers. *)
Definition numbered_methylation : list mch_row :=
  [Mch gapdh (CInt 1) zero zero;
   Mch gapdh (CInt 3) half one].

Definition databases (p : string) : option database :=
  if String.eqb p (mouse ++ "/species/gene_names.sqlite3") then Some gene_names_db
  else if String.eqb p (mouse ++ "/top_corr_genes.sqlite3") then Some corr_db
  else if String.eqb p "/data/datasets/orthologs.sqlite3" then Some orthologs_db
  else if String.eqb p (human ++ "/species/gene_names.sqlite3") then Some no_tables
  else if String.eqb p (human ++ "/top_corr_genes.sqlite3") then Some no_tables
  else None.

(** An argsort that keeps the order of equal keys: one of the orders a
    sort may give.  numpy's quicksort gives it on a short column and
    another one on a long column. *)
Definition stable_argsort {K} (le : K -> K -> bool) (keys : list K) : list nat :=
  map fst (sort_by (fun p q => le (snd p) (snd q))
                   (combine (seq 0 (List.length keys)) keys)).

Definition world_with (connect : string -> option database)
    (gene_file : list mch_row) : World :=
  {| DATA_DIR := "/data";
     now := "2017-12-11 10:00:00.000000";
     isdir := fun p => String.eqb p mouse || String.eqb p human;
     isfile := fun p => String.eqb p "/data/datasets/CEMBA_3C/cells/metadata.csv";
     os_walk := fun p =>
       if String.eqb p "/data/datasets"
       then [(p, ["CEMBA_3A"; "CEMBA_3C"], ["orthologs.sqlite3"]);
             ("/data/datasets/CEMBA_3C", ["cells"], [])]
       else if String.eqb p (mouse ++ "/datasets")
       then [(p, ["CEMBA_3A"; "CEMBA_3C"], [])]
       else [];
     glob_glob := fun p =>
       if String.eqb p (mouse ++ "/datasets/CEMBA_3C/mch/" ++ gapdh ++ "*")
       then [gapdh_file] else [];
     sqlite3_connect := connect;
     open_tsv := fun p =>
       if String.eqb p (mouse ++ "/tsne_points_ordered.tsv") then Some cluster else None;
     read_csv := fun p => if String.eqb p gapdh_file then Some gene_file else None;
     csv_DictReader := fun p =>
       [[("cell", "cell_1"); ("layer", "L2")]; [("cell", "cell_2"); ("layer", "L5")]];
     trace_colors := fun n =>
       if Nat.ltb n 2 then None else Some [("cluster_color_0", PyList [PyInt 0])];
     generate_cluster_colors := fun num =>
       Return (repeat "rgb(153.0,153.0,153.0)" (Z.to_nat num));
     json_dumps := dumps;
     to_numeric := numeric;
     quantile := linear_quantile;
     argsort := stable_argsort Float64.sort_le;
     argsort_codes := stable_argsort Z.leb;
     median_of_strings := DataError;
     plotly_heatmap_two_species := fun _ _ _ _ _ => Return "<div>heatmap</div>";
     plotly_box := fun _ _ _ => Return "<div>box</div>" |}.

Definition world : World := world_with databases methylation.

(** The same data directory with cells named by numbers in the
    methylation file, and with database files that hold no table. *)
Definition numbered : World := world_with databases numbered_methylation.


(** Records of a gene, not yet sorted: three cells of the cluster 'Pv',
    one of them without data, and one cell of 'L2/3'. *)
Definition records : list point :=
  [Point "cell_1" "0.5" "1.5" "cluster_2" "L2/3" (of_nat 2) "exc" zero zero;
   Point "cell_2" "0.1" "0.2" "cluster_1" "Pv" (of_nat 1) "inh" S754_nan S754_nan;
   Point "cell_3" "0.3" "0.4" "cluster_1" "Pv" (of_nat 1) "inh" half one;
   Point "cell_4" "0.2" "0.3" "cluster_1" "Pv" (of_nat 1) "inh" zero half].

Definition three_quarters : float := S754_finite false 6755399441055744 (-53).

End Example.

(** ** The vocabulary of the properties *)

(** The values of the rows of the group labelled [c], in the order of the
    rows. *)
Definition members (key : point -> scalar) (val : point -> float)
    (c : scalar) (rows : list point) : list float :=
  map val (filter (fun r => scalar_eqb (key r) c) rows).

Definition groups_of (key : point -> scalar) (val : point -> float)
    (ks : list scalar) (rows : list point) : list (scalar * list float) :=
  map (fun c => (c, members key val c rows)) ks.

(** What a sort of numpy guarantees of [argsort keys]: it holds every
    position of [keys] once, and the keys at its positions ascend. *)
Definition sorts {K} (le : K -> K -> Prop) (d : K)
    (argsort : list K -> list nat) (keys : list K) : Prop :=
  Permutation (argsort keys) (seq 0 (List.length keys)) /\
  Sorted (fun i j => le (nth i keys d) (nth j keys d)) (argsort keys).

Definition argsort_sorts (w : World) : Prop :=
  forall keys, Forall (fun k => Float64.is_nan k = false) keys ->
    sorts (fun a b => Float64.leb a b = true) S754_nan (argsort w) keys.

Definition argsort_codes_sorts (w : World) : Prop :=
  forall codes, sorts Z.le 0 (argsort_codes w) codes.

Definition metadata_path (w : World) (dir dataset : string) : string :=
  (DATA_DIR w ++ "/datasets") ++ "/" ++ dir ++ "/" ++ dataset ++ "/metadata.csv".

(** The value [get_metadata] serializes for the file at [path]. *)
Definition metadata_rows (w : World) (path : string) : pyval :=
  PyDict [("data",
           PyList (map (fun row => PyDict (map (fun kv => (fst kv, PyStr (snd kv))) row))
                       (csv_DictReader w path)))].

(** Rows in descending order of correlation: no row is below its
    successor. *)
Definition descending (a b : corr_row) : Prop :=
  Float64.ltb (Correlation a) (Correlation b) = false.

Definition gene_names_path (w : World) (species : string) : string :=
  DATA_DIR w ++ "/ensembles/" ++ species ++ "/species/gene_names.sqlite3".

Definition corr_genes_path (w : World) (species : string) : string :=
  DATA_DIR w ++ "/ensembles/" ++ species ++ "/top_corr_genes.sqlite3".




Definition select_by_name : string := "SELECT * FROM gene_names WHERE geneName LIKE ?".

Definition select_by_id : string := "SELECT * FROM gene_names WHERE geneID LIKE ?".

Definition select_corr : string :=
  "SELECT Gene2, Correlation FROM corr_genes WHERE Gene1 LIKE ? ORDER BY Correlation DESC LIMIT 50".

(** The handling the specification allows for an internal error: an empty
    result (anything Python holds for false: [[]], [{}], [None]), with or
    without a line on standard output, or the failed-to-graph exception. *)
Definition handled_as_specified (r : run pyval) : Prop :=
  match result r with
  | Return v => truthy v = false
  | Raise e => e = FailToGraphException
  end.

(** The pauses a call makes, and how often it draws colours or executes a
    statement. *)
Definition sleeps (t : list event) : list Z :=
  flat_map (fun ev => match ev with Sleep s => [s] | _ => [] end) t.



(** A call that never pauses. *)
Definition quiet {A} (r : run A) : Prop := sleeps (trace r) = [].


(** Ascending order of [cluster_ordered], NaN last. *)
Definition ascending (a b : point) : Prop :=
  Float64.sort_le (cluster_ordered a) (cluster_ordered b) = true.

(** A row of the left join, in the words of the specification: a cluster
    point with the values of a methylation row of the same sample, or with
    missing values when no methylation row has its sample. *)
Definition left_join_row (cluster : list cluster_point) (mch : list mch_row)
    (row : merged) : Prop :=
  In (fst row) cluster /\
  ((exists m, In m mch /\ m_samp m = CStr (cp_samp (fst row)) /\
              snd row = (m_original m, m_normalized m)) \/
   ((forall m, In m mch -> m_samp m <> CStr (cp_samp (fst row))) /\
    snd row = (S754_nan, S754_nan))).

Definition tsne_path (w : World) (species : string) : string :=
  DATA_DIR w ++ "/ensembles/" ++ species ++ "/tsne_points_ordered.tsv".

Definition datasets_path (w : World) (species : string) : string :=
  DATA_DIR w ++ "/ensembles/" ++ species ++ "/datasets".

(** The rows [get_gene_methylation] keeps of the merged frame: all of them
    with outliers, those strictly below the 99th percentile of the
    normalized column without. *)
Definition kept_rows (w : World) (outliers : bool) (joined : list merged) : list merged :=
  if outliers then joined
  else filter (fun r => Float64.ltb (merged_normalized r)
                          (quantile w (map merged_normalized joined) Float64.q99))
              joined.

(** A call without outliers as the specification words it: a row of the
    left join is removed only when its normalized value is at or above the
    99th percentile, so every other row is among the records. *)
Definition removes_only_outliers (w : World) (cluster : list cluster_point)
    (mch : list mch_row) (records : list point) : Prop :=
  let joined := left_join cluster mch in
  let q := quantile w (map merged_normalized joined) Float64.q99 in
  forall row, In row joined ->
    Float64.leb q (merged_normalized row) = false ->
    In (to_point w row) records.

(** * Part II: properties *)

(** ** The order of floats *)

Module Float64Facts.
Import Float64.

Lemma compare_key (a b : float) :
  is_nan a = false -> is_nan b = false ->
  SFcompare a b = Some (lex3 (key a) (key b)).
Proof.
  destruct a as [sa|sa| |sa ma ea], b as [sb|sb| |sb mb eb];
    simpl; try discriminate; intros _ _;
    try (destruct sa); try (destruct sb); try reflexivity.
  unfold lex3. rewrite Z.compare_refl, Z.compare_opp.
  rewrite (Z.compare_antisym ea eb).
  destruct (ea ?= eb); simpl; reflexivity.
Qed.

Ltac lex_cases :=
  repeat match goal with
         | H : context [?x ?= ?y] |- _ => destruct (Z.compare_spec x y)
         | |- context [?x ?= ?y] => destruct (Z.compare_spec x y)
         end; try discriminate; try congruence; try lia.

Lemma lex3_above (v s e : Z * Z * Z) :
  lex3 v e = Gt -> lex3 s e <> Gt -> lex3 v s <> Lt.
Proof.
  destruct v as [[v1 v2] v3], s as [[s1 s2] s3], e as [[e1 e2] e3].
  unfold lex3. intros H1 H2 H3. lex_cases.
Qed.

Lemma lex3_antisym (a b : Z * Z * Z) :
  lex3 a b <> Gt -> lex3 b a <> Lt.
Proof.
  destruct a as [[a1 a2] a3], b as [[b1 b2] b3].
  unfold lex3. intros H1 H2. lex_cases.
Qed.

Lemma lex3_total (a b : Z * Z * Z) :
  lex3 a b = Gt -> lex3 b a = Lt.
Proof.
  destruct a as [[a1 a2] a3], b as [[b1 b2] b3].
  unfold lex3. intros H1. lex_cases.
Qed.

Lemma leb_not_gt (a b : float) :
  is_nan a = false -> is_nan b = false ->
  leb a b = true -> lex3 (key a) (key b) <> Gt.
Proof.
  intros Ha Hb. unfold leb, SFleb. rewrite (compare_key a b Ha Hb).
  destruct (lex3 (key a) (key b)); congruence.
Qed.

Lemma leb_not_nan (a b : float) :
  leb a b = true -> is_nan a = false /\ is_nan b = false.
Proof.
  destruct a, b; simpl; try discriminate; auto.
Qed.

(** [v > e] and [s <= e] exclude [v < s]. *)
Lemma gtb_leb_not_ltb (v s e : float) :
  gtb v e = true -> leb s e = true -> ltb v s = false.
Proof.
  intros Hg Hl.
  destruct (leb_not_nan _ _ Hl) as [Hs He].
  assert (Hv : is_nan v = false)
    by (destruct v, e; unfold gtb in Hg; simpl in *; congruence).
  pose proof (leb_not_gt _ _ Hs He Hl) as Hse.
  unfold gtb in Hg. rewrite (compare_key v e Hv He) in Hg.
  unfold ltb, SFltb. rewrite (compare_key v s Hv Hs).
  assert (lex3 (key v) (key e) = Gt)
    by (destruct (lex3 (key v) (key e)); congruence).
  pose proof (lex3_above _ _ _ H Hse).
  destruct (lex3 (key v) (key s)); congruence.
Qed.

(** [s <= v] excludes [v < s]. *)
Lemma leb_not_ltb (s v : float) :
  leb s v = true -> ltb v s = false.
Proof.
  intros Hl.
  destruct (leb_not_nan _ _ Hl) as [Hs Hv].
  pose proof (lex3_antisym _ _ (leb_not_gt _ _ Hs Hv Hl)).
  unfold ltb, SFltb. rewrite (compare_key v s Hv Hs).
  destruct (lex3 (key v) (key s)); congruence.
Qed.

(** [v <= e] excludes [v > e]. *)
Lemma leb_not_gtb (v e : float) :
  leb v e = true -> gtb v e = false.
Proof.
  unfold leb, SFleb, gtb.
  destruct (SFcompare v e) as [[]|]; congruence.
Qed.

(** A NaN is neither below nor at or above anything. *)
Lemma nan_incomparable (q : float) :
  ltb S754_nan q = false /\ leb q S754_nan = false.
Proof.
  split; destruct q; reflexivity.
Qed.

(** The order pandas sorts in is total. *)
Lemma sort_le_total (a b : float) :
  sort_le a b = false -> sort_le b a = true.
Proof.
  unfold sort_le. intros H.
  apply orb_false_iff in H. destruct H as [Hb H].
  destruct (is_nan a) eqn:Ha; [reflexivity|]. simpl in *.
  rewrite Hb. simpl.
  unfold leb, SFleb in *.
  rewrite (compare_key a b Ha Hb) in H. rewrite (compare_key b a Hb Ha).
  destruct (lex3 (key a) (key b)) eqn:E; try discriminate.
  now rewrite (lex3_total _ _ E).
Qed.

Lemma lex3_eq (a b : Z * Z * Z) : lex3 a b = Eq <-> a = b.
Proof.
  destruct a as [[a1 a2] a3], b as [[b1 b2] b3]. unfold lex3. split.
  - intros H. lex_cases.
  - intros [= -> -> ->]. now rewrite !Z.compare_refl.
Qed.

Lemma lex3_trans (a b c : Z * Z * Z) :
  lex3 a b = Lt -> lex3 b c = Lt -> lex3 a c = Lt.
Proof.
  destruct a as [[a1 a2] a3], b as [[b1 b2] b3], c as [[c1 c2] c3].
  unfold lex3. intros H1 H2. lex_cases.
Qed.

(** Two floats are equal keys when both are NaN or both have the same
    place in the order. *)
Lemma eqb_cases (a b : float) :
  eqb a b = true <->
  (is_nan a = true /\ is_nan b = true) \/
  (is_nan a = false /\ is_nan b = false /\ key a = key b).
Proof.
  unfold eqb, SFeqb.
  destruct (is_nan a) eqn:Ha, (is_nan b) eqn:Hb.
  - destruct a, b; try discriminate. simpl. intuition.
  - destruct a, b; try discriminate; simpl; intuition discriminate.
  - destruct a, b; try discriminate; simpl; intuition discriminate.
  - rewrite (compare_key a b Ha Hb), andb_false_r, orb_false_r.
    rewrite <- lex3_eq. destruct (lex3 (key a) (key b)); intuition discriminate.
Qed.

Lemma eqb_refl (a : float) : eqb a a = true.
Proof.
  apply eqb_cases. destruct (is_nan a); [left | right]; auto.
Qed.

Lemma eqb_sym (a b : float) : eqb a b = true -> eqb b a = true.
Proof.
  rewrite !eqb_cases. intros [[Ha Hb] | (Ha & Hb & Hk)]; [left | right]; auto.
Qed.

Lemma eqb_trans (a b c : float) :
  eqb a b = true -> eqb b c = true -> eqb a c = true.
Proof.
  rewrite !eqb_cases.
  intros [[Ha Hb] | (Ha & Hb & Hk)] [[Hb' Hc] | (Hb' & Hc & Hk')];
    try congruence; [left | right]; auto.
  repeat split; congruence.
Qed.

Lemma ltb_not_nan (a b : float) :
  ltb a b = true -> is_nan a = false /\ is_nan b = false.
Proof.
  destruct a, b; simpl; try discriminate; auto.
Qed.

Lemma ltb_key (a b : float) :
  is_nan a = false -> is_nan b = false ->
  ltb a b = true <-> lex3 (key a) (key b) = Lt.
Proof.
  intros Ha Hb. unfold ltb, SFltb. rewrite (compare_key a b Ha Hb).
  destruct (lex3 (key a) (key b)); intuition discriminate.
Qed.

Lemma ltb_trans (a b c : float) :
  ltb a b = true -> ltb b c = true -> ltb a c = true.
Proof.
  intros H1 H2.
  destruct (ltb_not_nan _ _ H1) as [Ha Hb], (ltb_not_nan _ _ H2) as [_ Hc].
  apply ltb_key in H1, H2; try assumption.
  apply ltb_key; try assumption. eapply lex3_trans; eassumption.
Qed.

(** Of two numbers, one is at most the other or the other is below it. *)
Lemma not_leb_ltb (a b : float) :
  is_nan a = false -> is_nan b = false -> leb a b = false -> ltb b a = true.
Proof.
  intros Ha Hb H. apply ltb_key; try assumption.
  unfold leb, SFleb in H. rewrite (compare_key a b Ha Hb) in H.
  destruct (lex3 (key a) (key b)) eqn:E; try discriminate.
  now apply lex3_total.
Qed.

(** Equal keys stand in the same relations. *)
Lemma eqb_ltb (b c a : float) :
  eqb b c = true -> ltb b a = true -> ltb c a = true /\ ltb c b = false.
Proof.
  intros He Hlt. destruct (ltb_not_nan _ _ Hlt) as [Hb Ha].
  apply eqb_cases in He. destruct He as [[Hb' _] | (_ & Hc & Hk)]; [congruence|].
  split.
  - apply ltb_key; try assumption. rewrite <- Hk. now apply ltb_key.
  - destruct (ltb c b) eqn:E; [|reflexivity].
    apply ltb_key in E; try assumption. rewrite Hk in E.
    assert (lex3 (key c) (key c) = Eq) by now apply lex3_eq.
    congruence.
Qed.

(** On numbers, the order pandas sorts in is [<=]. *)
Lemma sort_le_leb (a b : float) :
  is_nan a = false -> is_nan b = false -> sort_le a b = leb a b.
Proof. unfold sort_le. now intros -> ->. Qed.

End Float64Facts.

(** ** Percentile clipping *)

(** C2: a NaN value is coloured with the string 'grey'; a numeric value is
    clipped to the percentile bounds [start <= end]: below [start] it
    becomes [start], above [end] it becomes [end], and in between it is
    returned as it is. *)
Theorem set_color_by_percentile_clips (v start end_ : float) :
  (Float64.is_nan v = true ->
   set_color_by_percentile v start end_ = PyStr "grey") /\
  (Float64.is_nan v = false -> Float64.leb start end_ = true ->
   (Float64.ltb v start = true ->
    set_color_by_percentile v start end_ = PyFloat start) /\
   (Float64.gtb v end_ = true ->
    set_color_by_percentile v start end_ = PyFloat end_) /\
   (Float64.leb start v = true -> Float64.leb v end_ = true ->
    set_color_by_percentile v start end_ = PyFloat v)).
Proof.
  unfold set_color_by_percentile. split.
  - intros ->. reflexivity.
  - intros -> Hle. repeat split.
    + intros ->. reflexivity.
    + intros Hgt.
      rewrite (Float64Facts.gtb_leb_not_ltb _ _ _ Hgt Hle), Hgt. reflexivity.
    + intros Hlo Hhi.
      rewrite (Float64Facts.leb_not_ltb _ _ Hlo), (Float64Facts.leb_not_gtb _ _ Hhi).
      reflexivity.
Qed.

(** The four cases of C2 on the bounds 0.5 and 1.0. *)
Lemma set_color_by_percentile_clips_witness :
  set_color_by_percentile S754_nan Example.half Example.one = PyStr "grey" /\
  set_color_by_percentile Example.zero Example.half Example.one = PyFloat Example.half /\
  set_color_by_percentile Float64.two Example.half Example.one = PyFloat Example.one /\
  set_color_by_percentile Float64.q99 Example.half Example.one = PyFloat Float64.q99.
Proof.
  split; [| split; [| split]].
  - apply (set_color_by_percentile_clips S754_nan Example.half Example.one).
    reflexivity.
  - apply (set_color_by_percentile_clips Example.zero Example.half Example.one);
      reflexivity.
  - apply (set_color_by_percentile_clips Float64.two Example.half Example.one);
      reflexivity.
  - apply (set_color_by_percentile_clips Float64.q99 Example.half Example.one);
      reflexivity.
Defined.

(** ** Existence of a gene *)

(** C9: when the walk over the datasets directory of the species yields
    nothing, [gene_exists] returns [None], not [False]; it returns a
    boolean exactly when the walk yields a first triple. *)
Theorem gene_exists_none_without_walk
    (w : World) (species methylationType : string) (gene : option string) :
  let datasets_path := DATA_DIR w ++ "/ensembles/" ++ species ++ "/datasets" in
  (os_walk w datasets_path = [] ->
   gene_exists w species methylationType gene = PyNone) /\
  ((exists b, gene_exists w species methylationType gene = PyBool b) <->
   os_walk w datasets_path <> []).
Proof.
  unfold gene_exists. cbv zeta.
  destruct (os_walk w _) as [|[[root dirs] files] rest].
  - split; [reflexivity|]. split.
    + intros [b Hb]. discriminate.
    + intros H. now elim H.
  - split; [discriminate|]. split.
    + discriminate.
    + intros _. eexists. reflexivity.
Qed.

(** C9 on the example world: an ensemble without a datasets directory. *)
Lemma gene_exists_none_without_walk_witness :
  gene_exists Example.world "rat" "mch" (Some Example.gapdh) = PyNone /\
  exists b, gene_exists Example.world "mouse_published" "mch" (Some Example.gapdh)
            = PyBool b.
Proof.
  split.
  - apply (proj1 (gene_exists_none_without_walk Example.world "rat" "mch"
                    (Some Example.gapdh))).
    reflexivity.
  - apply (proj2 (gene_exists_none_without_walk Example.world "mouse_published" "mch"
                    (Some Example.gapdh))).
    discriminate.
Defined.

(** ** Gene identifiers *)

(** C10: an identifier that already belongs to the species viewed is
    returned unchanged, and no database is consulted: a mouse identifier
    for the species 'mouse_published' or 'mmu', and an identifier without
    'ENSMUSG' for any other species. *)
Theorem convert_geneID_mmu_hsa_identity (w : World) (species geneID : string) :
  ((species = "mouse_published" \/ species = "mmu") ->
   contains "ENSMUSG" geneID = true ->
   convert_geneID_mmu_hsa w species geneID = ret (Some geneID)) /\
  (species <> "mouse_published" -> species <> "mmu" ->
   contains "ENSMUSG" geneID = false ->
   convert_geneID_mmu_hsa w species geneID = ret (Some geneID)).
Proof.
  unfold convert_geneID_mmu_hsa. split.
  - intros Hs Hc.
    assert (E : String.eqb species "mouse_published" || String.eqb species "mmu" = true).
    { destruct Hs as [-> | ->]; reflexivity. }
    rewrite E, Hc. reflexivity.
  - intros H1 H2 Hc.
    apply String.eqb_neq in H1. apply String.eqb_neq in H2.
    rewrite H1, H2, Hc. reflexivity.
Qed.

(** C10 on a mouse and on a human identifier. *)
Lemma convert_geneID_mmu_hsa_identity_witness :
  convert_geneID_mmu_hsa Example.world "mmu" Example.gapdh
    = ret (Some Example.gapdh) /\
  convert_geneID_mmu_hsa Example.world "human_hv1_published" "ENSG00000131095"
    = ret (Some "ENSG00000131095").
Proof.
  split.
  - apply (proj1 (convert_geneID_mmu_hsa_identity Example.world "mmu" Example.gapdh)).
    + right. reflexivity.
    + reflexivity.
  - apply (proj2 (convert_geneID_mmu_hsa_identity Example.world
                    "human_hv1_published" "ENSG00000131095")).
    + discriminate.
    + discriminate.
    + reflexivity.
Defined.

(** ** Dataset metadata *)

Lemma get_metadata_dirs_found (w : World) (dataset : string)
    (pre : list string) (dir : string) (post : list string) :
  (forall d, In d pre -> isfile w (metadata_path w d dataset) = false) ->
  isfile w (metadata_path w dir dataset) = true ->
  get_metadata_dirs w (DATA_DIR w ++ "/datasets") dataset (pre ++ dir :: post)
  = Some (json_dumps w (metadata_rows w (metadata_path w dir dataset))).
Proof.
  unfold metadata_path, metadata_rows. intros Hpre Hdir.
  induction pre as [|d pre IH]; cbn [get_metadata_dirs app].
  - rewrite Hdir. reflexivity.
  - rewrite (Hpre d (or_introl eq_refl)).
    apply IH. intros d' Hd'. apply Hpre. now right.
Qed.

Lemma get_metadata_dirs_none (w : World) (dataset : string) (dirs : list string) :
  (forall d, In d dirs -> isfile w (metadata_path w d dataset) = false) ->
  get_metadata_dirs w (DATA_DIR w ++ "/datasets") dataset dirs = None.
Proof.
  unfold metadata_path.
  induction dirs as [|d dirs IH]; intros H; cbn [get_metadata_dirs].
  - reflexivity.
  - rewrite (H d (or_introl eq_refl)).
    apply IH. intros d' Hd'. apply H. now right.
Qed.

(** C7: [get_metadata] always returns a serialization.  When the first
    triple of the walk over the datasets directory lists a directory that
    holds [<dataset>/metadata.csv], the rows of the first such file are
    serialized under "data"; when the walk yields nothing or no listed
    directory holds the file, [{"data": null}] is. *)
Theorem get_metadata_serializes (w : World) (dataset : string) :
  (exists v, get_metadata w dataset = json_dumps w v) /\
  (forall root (pre : list string) dir post files rest,
     os_walk w (DATA_DIR w ++ "/datasets")
     = (root, (pre ++ dir :: post)%list, files) :: rest ->
     (forall d, In d pre -> isfile w (metadata_path w d dataset) = false) ->
     isfile w (metadata_path w dir dataset) = true ->
     get_metadata w dataset
     = json_dumps w (metadata_rows w (metadata_path w dir dataset))) /\
  (os_walk w (DATA_DIR w ++ "/datasets") = [] \/
   (exists root dirs files rest,
      os_walk w (DATA_DIR w ++ "/datasets") = (root, dirs, files) :: rest /\
      forall d, In d dirs -> isfile w (metadata_path w d dataset) = false) ->
   get_metadata w dataset = json_dumps w (PyDict [("data", PyNone)])).
Proof.
  split; [| split].
  - unfold get_metadata.
    destruct (os_walk w _) as [|[[root dirs] files] rest]; [eexists; reflexivity|].
    generalize (DATA_DIR w ++ "/datasets") as path. intros path.
    induction dirs as [|d dirs IH]; cbn [get_metadata_dirs].
    + eexists; reflexivity.
    + destruct (isfile w _); [eexists; reflexivity | exact IH].
  - intros root pre dir post files rest Hwalk Hpre Hdir.
    unfold get_metadata. rewrite Hwalk.
    now rewrite (get_metadata_dirs_found w dataset pre dir post Hpre Hdir).
  - intros [Hwalk | (root & dirs & files & rest & Hwalk & Hnone)];
      unfold get_metadata; rewrite Hwalk; [reflexivity|].
    now rewrite (get_metadata_dirs_none w dataset dirs Hnone).
Qed.

(** C7 on the example world: the dataset 'cells' is found in the second
    directory, the dataset 'nuclei' in none. *)
Lemma get_metadata_serializes_witness :
  get_metadata Example.world "cells"
  = json_dumps Example.world
      (metadata_rows Example.world (metadata_path Example.world "CEMBA_3C" "cells")) /\
  get_metadata Example.world "nuclei"
  = json_dumps Example.world (PyDict [("data", PyNone)]).
Proof.
  split.
  - apply (proj1 (proj2 (get_metadata_serializes Example.world "cells"))
             "/data/datasets" ["CEMBA_3A"] "CEMBA_3C" [] ["orthologs.sqlite3"]
             [("/data/datasets/CEMBA_3C", ["cells"], [])]).
    + reflexivity.
    + intros d [<- | []]. reflexivity.
    + reflexivity.
  - apply (proj2 (proj2 (get_metadata_serializes Example.world "nuclei"))).
    right. exists "/data/datasets", ["CEMBA_3A"; "CEMBA_3C"], ["orthologs.sqlite3"],
             [("/data/datasets/CEMBA_3C", ["cells"], [])].
    split; [reflexivity|].
    intros d [<- | [<- | []]]; reflexivity.
Defined.

(** ** Insertion sort *)

Section SortBy.
Context {A : Type}.
Variable before : A -> A -> bool.

Lemma insert_by_perm (r : A) (l : list A) :
  Permutation (insert_by before r l) (r :: l).
Proof.
  induction l as [|x l IH]; simpl.
  - apply Permutation_refl.
  - destruct (before r x).
    + apply Permutation_refl.
    + apply perm_trans with (x :: r :: l).
      * now apply perm_skip.
      * apply perm_swap.
Qed.

Lemma sort_by_perm (l : list A) : Permutation (sort_by before l) l.
Proof.
  induction l as [|r l IH]; simpl.
  - apply perm_nil.
  - apply perm_trans with (r :: sort_by before l).
    + apply insert_by_perm.
    + now apply perm_skip.
Qed.

Lemma sort_by_length (l : list A) : List.length (sort_by before l) = List.length l.
Proof. apply Permutation_length, sort_by_perm. Qed.

Lemma sort_by_in (l : list A) (x : A) : In x (sort_by before l) <-> In x l.
Proof.
  split; apply Permutation_in;
    [apply sort_by_perm | apply Permutation_sym, sort_by_perm].
Qed.

Variable R : A -> A -> Prop.
Hypothesis before_R : forall a b, before a b = true -> R a b.
Hypothesis after_R : forall a b, before a b = false -> R b a.

Lemma insert_by_sorted (r : A) (l : list A) :
  Sorted R l -> Sorted R (insert_by before r l).
Proof.
  induction 1 as [|x l Hs IH Hhd]; simpl.
  - repeat constructor.
  - destruct (before r x) eqn:E.
    + constructor; [now constructor | constructor; auto].
    + constructor; [exact IH|].
      destruct l as [|y l]; simpl.
      * constructor. auto.
      * destruct (before r y); constructor; auto.
        now inversion Hhd.
Qed.

Lemma sort_by_sorted (l : list A) : Sorted R (sort_by before l).
Proof.
  induction l as [|r l IH]; simpl.
  - constructor.
  - now apply insert_by_sorted.
Qed.

End SortBy.

Lemma firstn_sorted {A} (R : A -> A -> Prop) (n : nat) (l : list A) :
  Sorted R l -> Sorted R (firstn n l).
Proof.
  intros H. revert n. induction H as [|x l Hs IH Hhd]; intros [|n]; simpl;
    try constructor.
  - apply IH.
  - destruct Hhd; destruct n; simpl; constructor; assumption.
Qed.

Lemma firstn_incl {A} (n : nat) (l : list A) (x : A) :
  In x (firstn n l) -> In x l.
Proof.
  revert l. induction n as [|n IH]; intros [|y l]; simpl; try tauto.
  intros [-> | H]; [now left | right; now apply IH].
Qed.

(** ** Sorting through an indexer *)

Lemma Sorted_in_impl {A} (R R' : A -> A -> Prop) (l : list A) :
  (forall a b, In a l -> In b l -> R a b -> R' a b) -> Sorted R l -> Sorted R' l.
Proof.
  intros H Hs. induction Hs as [|x l Hs IH Hhd]; constructor.
  - apply IH. intros a b Ha Hb. apply H; now right.
  - destruct Hhd; constructor. apply H; [now left | right; now left | assumption].
Qed.

Lemma Sorted_map {A B} (f : A -> B) (R : B -> B -> Prop) (l : list A) :
  Sorted (fun a b => R (f a) (f b)) l -> Sorted R (map f l).
Proof.
  induction 1 as [|x l Hs IH Hhd]; simpl; constructor; [assumption|].
  destruct Hhd; simpl; constructor; assumption.
Qed.

Lemma Sorted_app {A} (R : A -> A -> Prop) (l1 l2 : list A) :
  Sorted R l1 -> Sorted R l2 ->
  (forall a b, In a l1 -> In b l2 -> R a b) -> Sorted R (l1 ++ l2).
Proof.
  intros H1 H2 H. induction H1 as [|x l Hs IH Hhd]; simpl; [assumption|].
  constructor.
  - apply IH. intros a b Ha Hb. apply H; [now right | assumption].
  - destruct Hhd as [|y l' Hxy]; simpl.
    + destruct l2 as [|z l2]; constructor. apply H; now left.
    + constructor; assumption.
Qed.

Lemma Sorted_all {A} (R : A -> A -> Prop) (l : list A) :
  (forall a b, In b l -> R a b) -> Sorted R l.
Proof.
  intros H. induction l as [|x l IH]; constructor.
  - apply IH. intros a b Hb. apply H. now right.
  - destruct l; constructor. apply H. right. now left.
Qed.

Lemma filter_partition {A} (f : A -> bool) (l : list A) :
  Permutation (filter (fun x => negb (f x)) l ++ filter f l) l.
Proof.
  induction l as [|x l IH]; simpl; [constructor|].
  destruct (f x); simpl.
  - apply Permutation_sym, Permutation_cons_app, Permutation_sym, IH.
  - now constructor.
Qed.

Lemma take_seq {A} (pre rows : list A) :
  take (pre ++ rows) (seq (List.length pre) (List.length rows)) = rows.
Proof.
  revert pre. induction rows as [|x rows IH]; intros pre; [reflexivity|].
  cbn [List.length seq]. unfold take. cbn [flat_map].
  rewrite nth_error_app2, Nat.sub_diag by lia. cbn [nth_error app].
  f_equal. specialize (IH (pre ++ [x])%list).
  rewrite <- app_assoc, length_app, Nat.add_1_r in IH. exact IH.
Qed.

Lemma take_perm {A} (rows : list A) (indexer : list nat) :
  Permutation indexer (seq 0 (List.length rows)) ->
  Permutation (take rows indexer) rows.
Proof.
  intros H. rewrite <- (take_seq [] rows) at 2.
  unfold take. now apply Permutation_flat_map.
Qed.

Lemma take_map {A} (d : A) (rows : list A) (indexer : list nat) :
  Forall (fun i => (i < List.length rows)%nat) indexer ->
  take rows indexer = map (fun i => nth i rows d) indexer.
Proof.
  induction 1 as [|i l Hi Hl IH]; [reflexivity|].
  unfold take in *. cbn [flat_map map]. rewrite IH.
  destruct (nth_error rows i) as [r|] eqn:E.
  - now rewrite (nth_error_nth _ _ d E).
  - apply nth_error_None in E. lia.
Qed.

Lemma indexer_in_range (indexer : list nat) (n : nat) :
  Permutation indexer (seq 0 n) -> Forall (fun i => (i < n)%nat) indexer.
Proof.
  intros H. apply Forall_forall. intros i Hi.
  apply (Permutation_in _ H), in_seq in Hi. lia.
Qed.

Section SortRows.
Context {A K : Type}.
Variable isna : A -> bool.
Variable key : A -> K.
Variable argsort : list K -> list nat.
Variable le : K -> K -> Prop.
Variable d : K.
Variable rows : list A.
Hypothesis argsort_sorts :
  sorts le d argsort (map key (filter (fun r => negb (isna r)) rows)).

Lemma sort_rows_perm : Permutation (sort_rows isna key argsort rows) rows.
Proof.
  unfold sort_rows. destruct argsort_sorts as [Hperm _].
  rewrite length_map in Hperm.
  eapply perm_trans; [| apply (filter_partition isna rows)].
  apply Permutation_app_tail, take_perm, Hperm.
Qed.

Lemma sort_rows_in (r : A) : In r (sort_rows isna key argsort rows) <-> In r rows.
Proof.
  split; apply Permutation_in;
    [apply sort_rows_perm | apply Permutation_sym, sort_rows_perm].
Qed.

Lemma sort_rows_sorted (R : A -> A -> Prop) :
  (forall a b, In a rows -> In b rows -> isna a = false -> isna b = false ->
     le (key a) (key b) -> R a b) ->
  (forall a b, isna b = true -> R a b) ->
  Sorted R (sort_rows isna key argsort rows).
Proof.
  intros Hle Hna. unfold sort_rows.
  destruct argsort_sorts as [Hperm Hsorted].
  set (present := filter (fun r => negb (isna r)) rows) in *.
  rewrite length_map in Hperm.
  pose proof (indexer_in_range _ _ Hperm) as Hrange.
  apply Sorted_app.
  - destruct present as [|d0 rest] eqn:E.
    + apply Permutation_sym, Permutation_nil in Hperm.
      rewrite Hperm. constructor.
    + rewrite <- E in *. rewrite (take_map d0) by exact Hrange.
      apply Sorted_map. revert Hsorted. apply Sorted_in_impl.
      intros i j Hi Hj H.
      rewrite Forall_forall in Hrange.
      assert (Hnth : forall n, (n < List.length present)%nat ->
                nth n (map key present) d = key (nth n present d0)).
      { intros n Hn. rewrite (nth_indep _ d (key d0)) by now rewrite length_map.
        apply map_nth. }
      rewrite !Hnth in H by auto.
      assert (Hin : forall n, (n < List.length present)%nat ->
                In (nth n present d0) rows /\ isna (nth n present d0) = false).
      { intros n Hn. apply (nth_In present d0) in Hn.
        apply filter_In in Hn. destruct Hn as [Hn Hpresent].
        split; [exact Hn | now apply negb_true_iff]. }
      apply Hle; try apply Hin; auto.
  - apply Sorted_all. intros a b Hb. apply Hna.
    now apply filter_In in Hb.
  - intros a b _ Hb. apply Hna. now apply filter_In in Hb.
Qed.

End SortRows.

Lemma map_fst_combine {A B} (l : list A) (l' : list B) :
  List.length l = List.length l' -> map fst (combine l l') = l.
Proof.
  revert l'. induction l as [|x l IH]; intros [|y l']; simpl; try discriminate.
  - reflexivity.
  - intros [= H]. now rewrite IH.
Qed.

Lemma in_combine_seq {K} (d : K) (keys : list K) (s i : nat) (k : K) :
  In (i, k) (combine (seq s (List.length keys)) keys) ->
  (s <= i)%nat /\ nth (i - s) keys d = k.
Proof.
  revert s. induction keys as [|x keys IH]; intros s; simpl; [tauto|].
  intros [[= <- <-] | H].
  - rewrite Nat.sub_diag. auto.
  - apply IH in H. destruct H as [Hs H]. split; [lia|].
    replace (i - s)%nat with (S (i - S s)) by lia. exact H.
Qed.

(** An insertion sort of the positions is a sort as numpy guarantees it. *)
Lemma stable_argsort_sorts {K} (le : K -> K -> bool) (d : K) (keys : list K) :
  (forall a b, le a b = false -> le b a = true) ->
  sorts (fun a b => le a b = true) d (Example.stable_argsort le) keys.
Proof.
  intros Htotal. unfold sorts, Example.stable_argsort. split.
  - eapply perm_trans; [apply Permutation_map, sort_by_perm|].
    rewrite map_fst_combine by apply length_seq. apply Permutation_refl.
  - apply Sorted_map.
    apply Sorted_in_impl with (R := fun p q => le (snd p) (snd q) = true).
    + intros [i a] [j b] Hi Hj H. simpl in *.
      apply sort_by_in, (in_combine_seq d) in Hi, Hj.
      destruct Hi as [_ Hi], Hj as [_ Hj]. rewrite Nat.sub_0_r in Hi, Hj.
      now rewrite Hi, Hj.
    + apply sort_by_sorted; auto.
Qed.

Lemma example_argsort_sorts (connect : string -> option database)
    (gene_file : list mch_row) :
  argsort_sorts (Example.world_with connect gene_file).
Proof.
  intros keys Hkeys. cbn [argsort Example.world_with].
  destruct (stable_argsort_sorts Float64.sort_le S754_nan keys
              Float64Facts.sort_le_total) as [Hperm Hsorted].
  split; [exact Hperm|].
  pose proof (indexer_in_range _ _ Hperm) as Hrange.
  rewrite Forall_forall in Hrange, Hkeys.
  revert Hsorted. apply Sorted_in_impl. intros i j Hi Hj H.
  rewrite Float64Facts.sort_le_leb in H; [exact H| |];
    apply Hkeys, nth_In; auto.
Qed.

Lemma example_argsort_codes_sorts (connect : string -> option database)
    (gene_file : list mch_row) :
  argsort_codes_sorts (Example.world_with connect gene_file).
Proof.
  intros codes. cbn [argsort_codes Example.world_with].
  destruct (stable_argsort_sorts Z.leb 0 codes) as [Hperm Hsorted].
  - intros a b H. apply Z.leb_gt in H. apply Z.leb_le. lia.
  - split; [exact Hperm|].
    revert Hsorted. apply Sorted_in_impl. intros i j _ _ H. now apply Z.leb_le.
Qed.

(** ** Result sizes *)

Lemma order_by_correlation_desc_sorted (l : list corr_row) :
  Sorted descending (order_by_correlation_desc l).
Proof.
  apply sort_by_sorted; unfold descending; intros a b H.
  - now apply negb_true_iff in H.
  - apply negb_false_iff in H. apply Float64Facts.leb_not_ltb.
    unfold Float64.ltb, SFltb in H. unfold Float64.leb, SFleb.
    destruct (SFcompare _ _) as [[]|]; congruence.
Qed.

Lemma corr_query_length (query : string) (table : list corr_row) :
  (List.length (corr_query query table) <= 50)%nat.
Proof. apply firstn_le_length. Qed.

Lemma get_corr_genes_rows_length (w : World) (species : string)
    (rows : list corr_row) (rank : Z) (table_data : list pyval) (acc : Z * list pyval) :
  result (for_each (get_corr_genes_row w species) rows (rank, table_data)) = Return acc ->
  List.length (snd acc) = (List.length table_data + List.length rows)%nat.
Proof.
  revert rank table_data. induction rows as [|item rows IH]; intros rank table_data.
  - simpl. intros [= <-]. simpl. lia.
  - cbn [for_each]. unfold bind at 1.
    destruct (result (get_corr_genes_row w species (rank, table_data) item))
      as [[rank' td']|e] eqn:E; cbn [result]; [|discriminate].
    intros H. rewrite (IH _ _ H).
    unfold get_corr_genes_row, bind, lift in E.
    destruct (result (gene_id_to_name w species (Some (Gene2 item))))
      as [info|e]; cbn in E; [|discriminate].
    destruct (setitem info "Rank" (PyInt rank)) as [info1|e]; cbn in E; [|discriminate].
    destruct (setitem info1 "Corr" _) as [info2|e]; cbn in E; [|discriminate].
    injection E as _ <-. rewrite length_app. simpl. lia.
Qed.

(** *** The paths through the query helpers *)

Lemma search_gene_names_no_species (w : World) (species query : string) :
  species_exists w species = false ->
  search_gene_names w species query = ret (PyList []).
Proof. unfold search_gene_names. now intros ->. Qed.

Lemma search_gene_names_no_file (w : World) (species query : string) :
  species_exists w species = true ->
  sqlite3_connect w (gene_names_path w species) = None ->
  search_gene_names w species query = raise OperationalError.
Proof.
  unfold search_gene_names, connect, gene_names_path. now intros -> ->.
Qed.

Lemma search_gene_names_failed (w : World) (species query : string) (conn : database) :
  species_exists w species = true ->
  sqlite3_connect w (gene_names_path w species) = Some conn ->
  gene_names conn = None ->
  search_gene_names w species query
  = Run [Execute select_by_name (query ++ "%");
         Print (error_line w "Could not open gene_names.sqlite3" species)]
        (Return (PyList [])).
Proof.
  unfold search_gene_names, connect, gene_names_path. intros -> -> H.
  unfold bind; cbn -[firstn]. rewrite H. reflexivity.
Qed.

Lemma search_gene_names_found (w : World) (species query : string)
    (conn : database) (rows : list gene_name_row) :
  species_exists w species = true ->
  sqlite3_connect w (gene_names_path w species) = Some conn ->
  gene_names conn = Some rows ->
  search_gene_names w species query
  = Run [Execute select_by_name (query ++ "%")]
        (Return (PyList (firstn 50
                   (map (fun x => PyDict (dict_of_gene x))
                        (filter (fun row => like (query ++ "%") (geneName row)) rows))))).
Proof.
  unfold search_gene_names, connect, gene_names_path. intros -> -> H.
  unfold bind; cbn -[firstn]. rewrite H. reflexivity.
Qed.

Lemma gene_id_to_name_no_species (w : World) (species : string) (query : option string) :
  species_exists w species = false \/ falsy query = true ->
  gene_id_to_name w species query = ret (PyList []).
Proof.
  unfold gene_id_to_name. intros [-> | ->]; [reflexivity|].
  now rewrite orb_true_r.
Qed.

Lemma gene_id_to_name_no_file (w : World) (species : string) (query : option string) :
  species_exists w species = true -> falsy query = false ->
  sqlite3_connect w (gene_names_path w species) = None ->
  gene_id_to_name w species query = raise OperationalError.
Proof.
  unfold gene_id_to_name, connect, gene_names_path. now intros -> -> ->.
Qed.

Lemma gene_id_to_name_failed (w : World) (species : string) (query : option string)
    (conn : database) :
  species_exists w species = true -> falsy query = false ->
  sqlite3_connect w (gene_names_path w species) = Some conn ->
  gene_names conn = None ->
  gene_id_to_name w species query
  = Run [Execute select_by_id (str_of query ++ "%");
         Print (error_line w "Could not load gene_names.sqlite3" species)]
        (Return PyNone).
Proof.
  unfold gene_id_to_name, connect, gene_names_path. intros -> -> -> H.
  unfold bind; cbn. rewrite H. reflexivity.
Qed.

Lemma gene_id_to_name_fetched (w : World) (species : string) (query : option string)
    (conn : database) (rows : list gene_name_row) :
  species_exists w species = true -> falsy query = false ->
  sqlite3_connect w (gene_names_path w species) = Some conn ->
  gene_names conn = Some rows ->
  gene_id_to_name w species query
  = Run [Execute select_by_id (str_of query ++ "%")]
        match filter (fun row => like (str_of query ++ "%") (geneID row)) rows with
        | [] => Raise TypeError
        | row :: _ => Return (PyDict (dict_of_gene row))
        end.
Proof.
  unfold gene_id_to_name, connect, gene_names_path. intros -> -> -> H.
  unfold bind; cbn. rewrite H. cbn.
  destruct (filter _ rows); reflexivity.
Qed.





Lemma get_corr_genes_no_file (w : World) (species query : string) :
  sqlite3_connect w (corr_genes_path w species) = None ->
  get_corr_genes w species query = raise OperationalError.
Proof.
  unfold get_corr_genes, connect, corr_genes_path. now intros ->.
Qed.

Lemma get_corr_genes_failed (w : World) (species query : string) (conn : database) :
  sqlite3_connect w (corr_genes_path w species) = Some conn ->
  corr_genes conn = None ->
  get_corr_genes w species query
  = Run [Execute select_corr (query ++ "%");
         Print (error_line w "Could not load top_corr_genes.sqlite3" species)]
        (Return (PyInt 1)).
Proof.
  unfold get_corr_genes, connect, corr_genes_path. intros -> H.
  unfold bind; cbn -[corr_query for_each]. rewrite H. reflexivity.
Qed.

Lemma get_corr_genes_selected (w : World) (species query : string)
    (conn : database) (table : list corr_row) :
  sqlite3_connect w (corr_genes_path w species) = Some conn ->
  corr_genes conn = Some table ->
  result (get_corr_genes w species query)
  = match result (for_each (get_corr_genes_row w species)
                           (corr_query query table) (1, [])) with
    | Return acc => Return (PyList (snd acc))
    | Raise e => Raise e
    end.
Proof.
  unfold get_corr_genes, connect, corr_genes_path. intros -> H.
  unfold bind; cbn -[corr_query for_each]. rewrite H.
  cbn -[corr_query for_each].
  destruct (result (for_each _ _ _)); reflexivity.
Qed.

(** C8: result sizes are capped at 50.  Whatever [search_gene_names]
    returns is a list of at most 50 records, and it does return one as
    soon as the species is missing or its database opens.  The statement of
    [get_corr_genes] selects at most 50 rows, in descending order of
    correlation, among the rows of the table whose [Gene1] matches; and the
    table [get_corr_genes] returns has one entry per selected row, so at
    most 50. *)
Theorem results_capped_at_50 (w : World) (species query : string) :
  (forall v, result (search_gene_names w species query) = Return v ->
     exists genes, v = PyList genes /\ (List.length genes <= 50)%nat) /\
  (species_exists w species = false \/
   sqlite3_connect w (gene_names_path w species) <> None ->
   exists genes, result (search_gene_names w species query) = Return (PyList genes)) /\
  (forall table,
     (List.length (corr_query query table) <= 50)%nat /\
     Sorted descending (corr_query query table) /\
     (forall row, In row (corr_query query table) ->
        In row table /\ like (query ++ "%") (Gene1 row) = true)) /\
  (forall table_data,
     result (get_corr_genes w species query) = Return (PyList table_data) ->
     exists conn table,
       sqlite3_connect w (corr_genes_path w species) = Some conn /\
       corr_genes conn = Some table /\
       List.length table_data = List.length (corr_query query table) /\
       (List.length table_data <= 50)%nat).
Proof.
  assert (Hsearch : exists genes,
             (result (search_gene_names w species query) = Return (PyList genes) \/
              (species_exists w species = true /\
               sqlite3_connect w (gene_names_path w species) = None /\
               result (search_gene_names w species query) = Raise OperationalError)) /\
             (List.length genes <= 50)%nat).
  { destruct (species_exists w species) eqn:Es.
    - destruct (sqlite3_connect w (gene_names_path w species)) as [conn|] eqn:Ec.
      + destruct (gene_names conn) as [rows|] eqn:Et.
        * rewrite (search_gene_names_found w species query conn rows Es Ec Et).
          eexists. split; [left; reflexivity | apply firstn_le_length].
        * rewrite (search_gene_names_failed w species query conn Es Ec Et).
          exists []. split; [left; reflexivity | simpl; lia].
      + rewrite (search_gene_names_no_file w species query Es Ec).
        exists []. split; [right; auto | simpl; lia].
    - rewrite (search_gene_names_no_species w species query Es).
      exists []. split; [left; reflexivity | simpl; lia]. }
  destruct Hsearch as (genes & Hgenes & Hlen).
  split; [| split; [| split]].
  - intros v Hv. exists genes. split; [|exact Hlen].
    destruct Hgenes as [H | (_ & _ & H)]; congruence.
  - intros Hopen. exists genes.
    destruct Hgenes as [H | (Es & Ec & _)]; [exact H|].
    destruct Hopen as [Hs | Hc]; congruence.
  - intros table. split; [apply corr_query_length|]. split.
    + apply firstn_sorted, order_by_correlation_desc_sorted.
    + intros row H. unfold corr_query in H. apply firstn_incl in H.
      apply sort_by_in in H. apply filter_In in H. exact H.
  - intros table_data.
    destruct (sqlite3_connect w (corr_genes_path w species)) as [conn|] eqn:Ec.
    + destruct (corr_genes conn) as [table|] eqn:Et.
      * rewrite (get_corr_genes_selected w species query conn table Ec Et).
        destruct (result (for_each _ _ _)) as [acc|e] eqn:E; [|discriminate].
        intros [= <-]. exists conn, table.
        apply get_corr_genes_rows_length in E. simpl in E.
        repeat split; try assumption.
        rewrite E. apply corr_query_length.
      * rewrite (get_corr_genes_failed w species query conn Ec Et). discriminate.
    + rewrite (get_corr_genes_no_file w species query Ec). discriminate.
Qed.

(** C8 on the example world: of the sixty genes whose name starts with
    'olfr' and of the sixty genes correlated with Gfap, fifty come back. *)
Lemma results_capped_at_50_witness :
  (exists genes,
     result (search_gene_names Example.world "mouse_published" "olfr")
     = Return (PyList genes) /\ (List.length genes <= 50)%nat) /\
  (exists table_data,
     result (get_corr_genes Example.world "mouse_published" "ENSMUSG00000020932")
     = Return (PyList table_data) /\ (List.length table_data <= 50)%nat).
Proof.
  split.
  - destruct (results_capped_at_50 Example.world "mouse_published" "olfr")
      as (Hcap & Hreturns & _ & _).
    destruct Hreturns as [genes Hgenes].
    + right. vm_compute. discriminate.
    + exists genes. split; [exact Hgenes|].
      destruct (Hcap _ Hgenes) as (genes' & Heq & Hlen).
      injection Heq as ->. exact Hlen.
  - destruct (results_capped_at_50 Example.world "mouse_published" "ENSMUSG00000020932")
      as (_ & _ & _ & Hcorr).
    assert (Hres : exists table_data,
               result (get_corr_genes Example.world "mouse_published"
                         "ENSMUSG00000020932") = Return (PyList table_data))
      by (vm_compute; eexists; reflexivity).
    destruct Hres as [table_data Hres].
    exists table_data. split; [exact Hres|].
    destruct (Hcorr table_data Hres) as (conn & table & _ & _ & _ & Hlen).
    exact Hlen.
Defined.

Example search_gene_names_page :
  match result (search_gene_names Example.world "mouse_published" "olfr") with
  | Return (PyList genes) => Some (List.length genes)
  | _ => None
  end = Some 50%nat.
Proof. vm_compute. reflexivity. Qed.

Example get_corr_genes_page :
  match result (get_corr_genes Example.world "mouse_published" "ENSMUSG00000020932") with
  | Return (PyList table_data) => Some (List.length table_data, nth_error table_data 0)
  | _ => None
  end
  = Some (50%nat,
          Some (PyDict [("geneID", PyStr "ENSMUSG960"); ("geneName", PyStr "Olfr60");
                        ("chr", PyStr "7"); ("Rank", PyInt 1);
                        ("Corr", PyFloat (Example.of_nat 60))])).
Proof. vm_compute. reflexivity. Qed.

(** ** How the query helpers report an error *)

Lemma gene_id_to_name_raises (w : World) (species : string) (query : option string)
    (e : exn) :
  result (gene_id_to_name w species query) = Raise e ->
  e = OperationalError \/ e = TypeError.
Proof.
  destruct (species_exists w species) eqn:Es;
    [|rewrite gene_id_to_name_no_species by auto; discriminate].
  destruct (falsy query) eqn:Eq;
    [rewrite gene_id_to_name_no_species by auto; discriminate|].
  destruct (sqlite3_connect w (gene_names_path w species)) as [conn|] eqn:Ec.
  - destruct (gene_names conn) as [rows|] eqn:Et.
    + rewrite (gene_id_to_name_fetched w species query conn rows Es Eq Ec Et).
      cbn. destruct (filter _ rows); [intros [= <-]; auto | discriminate].
    + rewrite (gene_id_to_name_failed w species query conn Es Eq Ec Et). discriminate.
  - rewrite (gene_id_to_name_no_file w species query Es Eq Ec).
    intros [= <-]; auto.
Qed.

Lemma get_corr_genes_row_raises (w : World) (species : string)
    (acc : Z * list pyval) (item : corr_row) (e : exn) :
  result (get_corr_genes_row w species acc item) = Raise e ->
  e = OperationalError \/ e = TypeError.
Proof.
  destruct acc as [rank table_data]. unfold get_corr_genes_row, bind, lift.
  destruct (result (gene_id_to_name w species (Some (Gene2 item)))) as [info|e'] eqn:E;
    cbn.
  - destruct info; cbn; try discriminate; intros [= <-]; auto.
  - intros [= <-]. eapply gene_id_to_name_raises, E.
Qed.

Lemma for_each_raises {A S} (P : exn -> Prop) (body : S -> A -> run S) :
  (forall s x e, result (body s x) = Raise e -> P e) ->
  forall l s e, result (for_each body l s) = Raise e -> P e.
Proof.
  intros Hbody. induction l as [|x l IH]; intros s e; cbn [for_each].
  - discriminate.
  - unfold bind. destruct (result (body s x)) as [s'|e'] eqn:E; cbn.
    + apply IH.
    + intros [= <-]. eapply Hbody, E.
Qed.

Lemma get_corr_genes_raises (w : World) (species query : string) (e : exn) :
  result (get_corr_genes w species query) = Raise e ->
  e = OperationalError \/ e = TypeError.
Proof.
  destruct (sqlite3_connect w (corr_genes_path w species)) as [conn|] eqn:Ec.
  - destruct (corr_genes conn) as [table|] eqn:Et.
    + rewrite (get_corr_genes_selected w species query conn table Ec Et).
      destruct (result (for_each _ _ _)) as [acc|e'] eqn:E; [discriminate|].
      intros [= <-].
      eapply (for_each_raises (fun e => e = OperationalError \/ e = TypeError)), E.
      apply get_corr_genes_row_raises.
    + rewrite (get_corr_genes_failed w species query conn Ec Et). discriminate.
  - rewrite (get_corr_genes_no_file w species query Ec). intros [= <-]; auto.
Qed.

(** C3, as the code has it: a statement that fails is executed once, one
    line is printed, and a sentinel is returned: the empty list by
    [search_gene_names], [None] by [gene_id_to_name], the integer 1 by
    [get_corr_genes].  For a missing species [search_gene_names] and
    [gene_id_to_name] return the empty list and print nothing.  None of the
    three ever raises the failed-to-graph exception. *)
Theorem query_helpers_log_and_return_sentinel
    (w : World) (species query : string) :
  (forall conn,
     species_exists w species = true ->
     sqlite3_connect w (gene_names_path w species) = Some conn ->
     gene_names conn = None ->
     search_gene_names w species query
     = Run [Execute select_by_name (query ++ "%");
            Print (error_line w "Could not open gene_names.sqlite3" species)]
           (Return (PyList [])) /\
     (falsy (Some query) = false ->
      gene_id_to_name w species (Some query)
      = Run [Execute select_by_id (query ++ "%");
             Print (error_line w "Could not load gene_names.sqlite3" species)]
            (Return PyNone))) /\
  (forall conn,
     sqlite3_connect w (corr_genes_path w species) = Some conn ->
     corr_genes conn = None ->
     get_corr_genes w species query
     = Run [Execute select_corr (query ++ "%");
            Print (error_line w "Could not load top_corr_genes.sqlite3" species)]
           (Return (PyInt 1))) /\
  (species_exists w species = false ->
   search_gene_names w species query = ret (PyList []) /\
   gene_id_to_name w species (Some query) = ret (PyList [])) /\
  result (search_gene_names w species query) <> Raise FailToGraphException /\
  result (gene_id_to_name w species (Some query)) <> Raise FailToGraphException /\
  result (get_corr_genes w species query) <> Raise FailToGraphException.
Proof.
  split; [| split; [| split; [| split; [| split]]]].
  - intros conn Es Ec Et. split.
    + now apply search_gene_names_failed with conn.
    + intros Hq. now apply (gene_id_to_name_failed w species (Some query) conn).
  - intros conn Ec Et. now apply get_corr_genes_failed with conn.
  - intros Es. split.
    + now apply search_gene_names_no_species.
    + apply gene_id_to_name_no_species. now left.
  - destruct (species_exists w species) eqn:Es.
    + destruct (sqlite3_connect w (gene_names_path w species)) as [conn|] eqn:Ec.
      * destruct (gene_names conn) as [rows|] eqn:Et.
        -- rewrite (search_gene_names_found w species query conn rows Es Ec Et).
           discriminate.
        -- rewrite (search_gene_names_failed w species query conn Es Ec Et).
           discriminate.
      * rewrite (search_gene_names_no_file w species query Es Ec). discriminate.
    + rewrite (search_gene_names_no_species w species query Es). discriminate.
  - intros H. apply gene_id_to_name_raises in H. destruct H; discriminate.
  - intros H. apply get_corr_genes_raises in H. destruct H; discriminate.
Qed.

(** C3 on the example world, whose human databases have no tables. *)
Lemma query_helpers_log_and_return_sentinel_witness :
  result (search_gene_names Example.world "human_hv1_published" "gap") = Return (PyList []) /\
  result (gene_id_to_name Example.world "human_hv1_published" (Some "gap")) = Return PyNone /\
  result (get_corr_genes Example.world "human_hv1_published" "gap") = Return (PyInt 1) /\
  search_gene_names Example.world "rat" "gap" = ret (PyList []).
Proof.
  destruct (query_helpers_log_and_return_sentinel Example.world "human_hv1_published" "gap")
    as (Hnames & Hcorr & _).
  destruct (Hnames Example.no_tables eq_refl eq_refl eq_refl) as [Hsearch Hid].
  rewrite Hsearch, (Hid eq_refl), (Hcorr Example.no_tables eq_refl eq_refl).
  split; [reflexivity | split; [reflexivity | split; [reflexivity|]]].
  destruct (query_helpers_log_and_return_sentinel Example.world "rat" "gap")
    as (_ & _ & Hmissing & _).
  apply Hmissing. reflexivity.
Defined.

(** C3 as stated fails on [get_corr_genes]: its statement fails on a
    database without the table, and the call returns the integer 1, which
    is neither an empty result nor the failed-to-graph exception. *)
Lemma get_corr_genes_sentinel_counterexample :
  sqlite3_connect Example.world (corr_genes_path Example.world "human_hv1_published")
  = Some Example.no_tables /\
  corr_genes Example.no_tables = None /\
  result (get_corr_genes Example.world "human_hv1_published" Example.gapdh)
  = Return (PyInt 1) /\
  ~ handled_as_specified
      (get_corr_genes Example.world "human_hv1_published" Example.gapdh).
Proof.
  repeat split. unfold handled_as_specified.
  vm_compute. discriminate.
Qed.

(** ** Retrying *)

Lemma sleeps_app (t u : list event) : sleeps (t ++ u) = (sleeps t ++ sleeps u)%list.
Proof. apply flat_map_app. Qed.

Lemma quiet_ret {A} (a : A) : quiet (ret a).
Proof. reflexivity. Qed.

Lemma quiet_raise {A} (e : exn) : quiet (@raise A e).
Proof. reflexivity. Qed.

Lemma quiet_lift {A} (o : outcome A) : quiet (lift o).
Proof. reflexivity. Qed.

Lemma quiet_bind {A B} (m : run A) (k : A -> run B) :
  quiet m -> (forall a, quiet (k a)) -> quiet (bind m k).
Proof.
  unfold quiet, bind. intros Hm Hk.
  destruct (result m) as [a|e]; cbn [trace]; [|exact Hm].
  now rewrite sleeps_app, Hm, Hk.
Qed.

Lemma quiet_attempt {A} (m : run A) : quiet m -> quiet (attempt m).
Proof. auto. Qed.

Lemma quiet_cursor_execute {R} (sql param : string) (table : option (list R))
    (select : list R -> list R) :
  quiet (cursor_execute sql param table select).
Proof.
  unfold cursor_execute. apply quiet_bind; [reflexivity|].
  intros _. destruct table; reflexivity.
Qed.

Lemma quiet_connect (w : World) (path : string) : quiet (connect w path).
Proof. unfold connect. destruct (sqlite3_connect w path); reflexivity. Qed.


Create HintDb quiet.
#[local] Hint Resolve quiet_ret quiet_raise quiet_lift quiet_attempt
  quiet_cursor_execute quiet_connect : quiet.













(** ** Failure of a plot generator *)

(** C1 fails on [get_mch_heatmap_two_species]: when the query names no
    gene, both frames are empty and the call returns the exception class
    [FailToGraphException] as an ordinary value instead of raising it. *)
Theorem get_mch_heatmap_two_species_returns_class
    (w : World) (species methylationType level : string)
    (ptile_start ptile_end : float) (normalize_row : bool) (query : string) :
  split query = [] ->
  get_mch_heatmap_two_species w species methylationType level
    ptile_start ptile_end normalize_row query
  = ret (PyExcClass FailToGraphException).
Proof.
  intros Hq. unfold get_mch_heatmap_two_species. rewrite Hq.
  destruct (String.eqb species "mouse_published" || String.eqb species "mmu");
    reflexivity.
Qed.

(** C1 fails for the empty query string. *)
Lemma get_mch_heatmap_two_species_returns_class_witness :
  get_mch_heatmap_two_species Example.world "mmu" "mch" "original"
    Example.zero Example.one false EmptyString
  = ret (PyExcClass FailToGraphException).
Proof.
  apply (get_mch_heatmap_two_species_returns_class Example.world "mmu" "mch" "original"
           Example.zero Example.one false EmptyString).
  reflexivity.
Defined.

(** The same happens for a mouse gene that has data but no human ortholog:
    the human frame gets a column of NaN and no row. *)
Example get_mch_heatmap_two_species_no_ortholog :
  result (get_mch_heatmap_two_species Example.world "mmu" "mch" "original"
            Example.zero Example.one false Example.gapdh)
  = Return (PyExcClass FailToGraphException).
Proof. vm_compute. reflexivity. Qed.

(** The sibling [get_mch_box] raises on the same condition. *)
Lemma get_mch_box_raises (w : World) (species methylationType gene level : string)
    (outliers : bool) (g : option string) :
  result (convert_geneID_mmu_hsa w species gene) = Return g ->
  result (get_gene_methylation w species methylationType g outliers) = Return [] ->
  result (get_mch_box w species methylationType gene level outliers)
  = Raise FailToGraphException.
Proof.
  intros Hc Hg. unfold get_mch_box, bind. rewrite Hc. cbn. rewrite Hg. reflexivity.
Qed.

Example get_mch_box_unknown_species :
  result (get_mch_box Example.world "rat" "mch" "ENSRNOG00000018630" "original" true)
  = Raise FailToGraphException.
Proof. vm_compute. reflexivity. Qed.

(** ** Grouping *)

Section Distinct.
Context {K : Type}.
Variable eqb : K -> K -> bool.
Hypothesis eqb_refl : forall a, eqb a a = true.
Hypothesis eqb_sym : forall a b, eqb a b = true -> eqb b a = true.
Hypothesis eqb_trans : forall a b c, eqb a b = true -> eqb b c = true -> eqb a c = true.

Lemma distinct_incl (l : list K) (k : K) : In k (distinct eqb l) -> In k l.
Proof.
  revert k. induction l as [|a l IH]; simpl; [tauto|].
  intros k [-> | H]; [now left|]. apply filter_In in H. right. now apply IH.
Qed.

(** Every element has an equal one among the distinct elements. *)
Lemma distinct_rep (l : list K) (k : K) :
  In k l -> exists c, In c (distinct eqb l) /\ eqb k c = true.
Proof.
  induction l as [|a l IH]; simpl; [tauto|].
  intros [-> | H].
  - exists k. auto.
  - destruct (IH H) as (c & Hc & Hkc).
    destruct (eqb c a) eqn:E.
    + exists a. split; [now left | eauto].
    + exists c. split; [|exact Hkc]. right.
      apply filter_In. now rewrite E.
Qed.

Lemma ForallOrdPairs_filter {A} (R : A -> A -> Prop) (f : A -> bool) (l : list A) :
  ForallOrdPairs R l -> ForallOrdPairs R (filter f l).
Proof.
  induction 1 as [|a l Ha Hl IH]; simpl; [constructor|].
  destruct (f a); [|exact IH]. constructor; [|exact IH].
  rewrite Forall_forall in *. intros x Hx. apply filter_In in Hx. now apply Ha.
Qed.

(** No distinct element equals an earlier one. *)
Lemma distinct_apart (l : list K) :
  ForallOrdPairs (fun a b => eqb b a = false) (distinct eqb l).
Proof.
  induction l as [|a l IH]; simpl; constructor.
  - apply Forall_forall. intros x Hx. apply filter_In in Hx.
    now apply negb_true_iff.
  - now apply ForallOrdPairs_filter.
Qed.

Lemma apart_NoDup (l : list K) :
  ForallOrdPairs (fun a b => eqb b a = false) l -> NoDup l.
Proof.
  induction 1 as [|a l Ha Hl IH]; constructor; [|exact IH].
  intros Hin. rewrite Forall_forall in Ha.
  specialize (Ha a Hin). now rewrite eqb_refl in Ha.
Qed.

Lemma distinct_snoc (l : list K) (k : K) :
  distinct eqb (l ++ [k])
  = if existsb (fun x => eqb k x) l then distinct eqb l
    else (distinct eqb l ++ [k])%list.
Proof.
  induction l as [|a l IH]; simpl; [reflexivity|].
  rewrite IH. destruct (existsb (fun x => eqb k x) l) eqn:E.
  - now rewrite orb_true_r.
  - rewrite orb_false_r, filter_app. simpl.
    destruct (eqb k a) eqn:Eka; simpl; [now rewrite app_nil_r | reflexivity].
Qed.

End Distinct.

Lemma scalar_eqb_refl (a : scalar) : scalar_eqb a a = true.
Proof.
  destruct a; simpl; [apply String.eqb_refl | apply Float64Facts.eqb_refl].
Qed.

Lemma scalar_eqb_sym (a b : scalar) : scalar_eqb a b = true -> scalar_eqb b a = true.
Proof.
  destruct a, b; simpl; try discriminate.
  - now rewrite String.eqb_sym.
  - apply Float64Facts.eqb_sym.
Qed.

Lemma scalar_eqb_trans (a b c : scalar) :
  scalar_eqb a b = true -> scalar_eqb b c = true -> scalar_eqb a c = true.
Proof.
  destruct a, b, c; simpl; try discriminate.
  - rewrite !String.eqb_eq. congruence.
  - apply Float64Facts.eqb_trans.
Qed.

(** Equal keys are both missing or both present. *)
Lemma scalar_eqb_isna (a b : scalar) : scalar_eqb a b = true -> isna a = isna b.
Proof.
  destruct a, b; simpl; try discriminate; [reflexivity|].
  intros H. apply Float64Facts.eqb_cases in H.
  destruct H as [[-> ->] | (-> & -> & _)]; reflexivity.
Qed.

Lemma scalar_eqb_str (a b : string) : scalar_eqb (Str a) (Str b) = true <-> a = b.
Proof. apply String.eqb_eq. Qed.

Section GroupBy.
Variable key : point -> scalar.
Variable val : point -> float.

Lemma members_snoc (c : scalar) (r : point) (p : list point) :
  members key val c (p ++ [r])
  = (members key val c p ++ if scalar_eqb (key r) c then [val r] else [])%list.
Proof.
  unfold members. rewrite filter_app, map_app. simpl.
  now destruct (scalar_eqb (key r) c).
Qed.

Lemma members_absent (c : scalar) (p : list point) :
  existsb (fun k => scalar_eqb c k) (map key p) = false -> members key val c p = [].
Proof.
  unfold members. induction p as [|x p IH]; simpl; [reflexivity|].
  intros H. apply orb_false_iff in H. destruct H as [Hx Hp].
  destruct (scalar_eqb (key x) c) eqn:E; [|now apply IH].
  apply scalar_eqb_sym in E. congruence.
Qed.

Lemma group_insert_present (ks : list scalar) (r : point) (p : list point) :
  ForallOrdPairs (fun a b => scalar_eqb b a = false) ks ->
  (exists c, In c ks /\ scalar_eqb (key r) c = true) ->
  group_insert (key r) (val r) (groups_of key val ks p)
  = groups_of key val ks (p ++ [r]).
Proof.
  induction 1 as [|c ks Hc Hapart IH]; intros (c0 & Hin & Heq); [contradiction|].
  cbn [groups_of map group_insert].
  fold (groups_of key val ks p). fold (groups_of key val ks (p ++ [r])).
  rewrite members_snoc.
  destruct (scalar_eqb (key r) c) eqn:E.
  - f_equal. unfold groups_of. apply map_ext_in. intros c' Hc'.
    rewrite members_snoc.
    destruct (scalar_eqb (key r) c') eqn:E'; [|now rewrite app_nil_r].
    rewrite Forall_forall in Hc. specialize (Hc c' Hc').
    apply scalar_eqb_sym in E'.
    now rewrite (scalar_eqb_trans _ _ _ E' E) in Hc.
  - rewrite app_nil_r. f_equal. apply IH.
    destruct Hin as [-> | Hin]; [congruence | eauto].
Qed.

Lemma group_insert_absent (ks : list scalar) (r : point) (p : list point) :
  (forall c, In c ks -> scalar_eqb (key r) c = false) ->
  existsb (fun k => scalar_eqb (key r) k) (map key p) = false ->
  group_insert (key r) (val r) (groups_of key val ks p)
  = groups_of key val (ks ++ [key r]) (p ++ [r]).
Proof.
  intros Hks Hp. induction ks as [|c ks IH].
  - cbn. rewrite members_snoc, (members_absent _ _ Hp), scalar_eqb_refl. reflexivity.
  - cbn [groups_of map group_insert app].
    fold (groups_of key val ks p). fold (groups_of key val (ks ++ [key r]) (p ++ [r])).
    rewrite members_snoc, (Hks c (or_introl eq_refl)), app_nil_r.
    f_equal. apply IH. intros c' Hc'. apply Hks. now right.
Qed.

(** The groups are those of the distinct keys, in order of first
    appearance. *)
Lemma group_insert_groups (rows : list point) :
  fold_left (fun groups r => group_insert (key r) (val r) groups) rows []
  = groups_of key val (distinct scalar_eqb (map key rows)) rows.
Proof.
  induction rows as [|r p IH] using rev_ind; [reflexivity|].
  rewrite fold_left_app. cbn [fold_left]. rewrite IH.
  rewrite map_app. cbn [map].
  rewrite (distinct_snoc scalar_eqb).
  destruct (existsb (fun x => scalar_eqb (key r) x) (map key p)) eqn:E.
  - apply group_insert_present; [apply distinct_apart|].
    apply existsb_exists in E. destruct E as (k & Hk & Heq).
    destruct (distinct_rep scalar_eqb scalar_eqb_refl scalar_eqb_sym scalar_eqb_trans _ _ Hk) as (c & Hc & Hkc).
    exists c. split; [exact Hc|]. eapply scalar_eqb_trans; eassumption.
  - apply group_insert_absent; [|exact E].
    intros c Hc. apply distinct_incl in Hc.
    destruct (scalar_eqb (key r) c) eqn:Ec; [|reflexivity].
    assert (existsb (fun x => scalar_eqb (key r) x) (map key p) = true)
      by (apply existsb_exists; eauto).
    congruence.
Qed.

(** Leaving out the rows whose key is missing does not change the
    members of a group that has a label. *)
Lemma members_present (c : scalar) (rows : list point) :
  isna c = false ->
  members key val c (filter (fun r => negb (isna (key r))) rows)
  = members key val c rows.
Proof.
  intros Hc. unfold members. f_equal.
  induction rows as [|r rows IH]; simpl; [reflexivity|].
  destruct (isna (key r)) eqn:E; simpl.
  - destruct (scalar_eqb (key r) c) eqn:Ec; [|exact IH].
    apply scalar_eqb_isna in Ec. congruence.
  - now rewrite IH.
Qed.

Lemma keys_present (rows : list point) :
  map key (filter (fun r => negb (isna (key r))) rows)
  = filter (fun c => negb (isna c)) (map key rows).
Proof.
  induction rows as [|r rows IH]; simpl; [reflexivity|].
  destruct (isna (key r)); simpl; now rewrite IH.
Qed.

Lemma groupby_groups (rows : list point) :
  groupby key val rows
  = groups_of key val
      (distinct scalar_eqb (filter (fun c => negb (isna c)) (map key rows))) rows.
Proof.
  unfold groupby. rewrite group_insert_groups, keys_present.
  unfold groups_of. apply map_ext_in. intros c Hc.
  f_equal. apply members_present.
  apply distinct_incl, filter_In in Hc. now apply negb_true_iff.
Qed.

Lemma members_perm (c : scalar) (rows rows' : list point) :
  Permutation rows rows' ->
  Permutation (members key val c rows) (members key val c rows').
Proof.
  intros H. unfold members. apply Permutation_map.
  induction H; simpl.
  - constructor.
  - destruct (scalar_eqb (key x) c); [now constructor | assumption].
  - destruct (scalar_eqb (key x) c), (scalar_eqb (key y) c);
      try apply perm_swap; apply Permutation_refl.
  - eapply perm_trans; eassumption.
Qed.

End GroupBy.

Lemma sort_values_argsort (w : World) (l : list point) :
  argsort_sorts w ->
  sorts (fun a b => Float64.leb a b = true) S754_nan (argsort w)
        (map cluster_ordered (filter (fun r => negb (no_order r)) l)).
Proof.
  intros Hw. apply Hw. apply Forall_forall. intros k Hk.
  apply in_map_iff in Hk. destruct Hk as (r & <- & Hr).
  apply filter_In in Hr. now apply negb_true_iff.
Qed.

Lemma sort_values_perm (w : World) (l : list point) :
  argsort_sorts w -> Permutation (sort_values w l) l.
Proof.
  intros Hw. eapply sort_rows_perm, sort_values_argsort, Hw.
Qed.

Lemma sort_values_sorted (w : World) (l : list point) :
  argsort_sorts w -> Sorted ascending (sort_values w l).
Proof.
  intros Hw. eapply sort_rows_sorted; [apply sort_values_argsort, Hw | |];
    unfold ascending, no_order, Float64.sort_le.
  - intros a b _ _ -> -> H. exact H.
  - intros a b ->. reflexivity.
Qed.

(** C5: for a non-empty [gene_info], a level column of numbers and a
    cluster column of the records, [median_cluster_mch] returns the
    group-by aggregation: one entry per distinct cluster value that is not
    missing, in the order of first appearance among the rows sorted
    ascending on [cluster_ordered], each with the median of the level
    values of the rows of that cluster.  The sorted rows are the rows of
    [gene_info] in ascending order, rows of equal [cluster_ordered] in the
    order numpy leaves them in. *)
Theorem median_cluster_mch_groups
    (w : World) (gene_info : list point) (level cluster_type : string)
    (key : point -> scalar) (val : point -> float) :
  argsort_sorts w ->
  gene_info <> [] ->
  column cluster_type = Some key ->
  float_column level = Some val ->
  let rows := sort_values w gene_info in
  exists series,
    median_cluster_mch w gene_info level cluster_type = Return series /\
    series = median_by_cluster w key val gene_info /\
    map fst series
    = distinct scalar_eqb (filter (fun c => negb (isna c)) (map key rows)) /\
    NoDup (map fst series) /\
    ForallOrdPairs (fun a b => scalar_eqb b a = false) (map fst series) /\
    (forall c, In c (map fst series) ->
       isna c = false /\ exists r, In r gene_info /\ key r = c) /\
    (forall r, In r gene_info -> isna (key r) = false ->
       exists c, In c (map fst series) /\ scalar_eqb (key r) c = true) /\
    (forall c m, In (c, m) series ->
       m = median (members key val c rows) /\
       Permutation (members key val c rows) (members key val c gene_info)) /\
    Permutation rows gene_info /\
    Sorted ascending rows.
Proof.
  intros Hw Hne Hkey Hval rows.
  exists (median_by_cluster w key val gene_info).
  assert (Hkeys : map fst (median_by_cluster w key val gene_info)
                  = distinct scalar_eqb
                      (filter (fun c => negb (isna c)) (map key rows))).
  { unfold median_by_cluster. rewrite map_map. simpl. apply map_id. }
  assert (Hperm : Permutation rows gene_info) by now apply sort_values_perm.
  split; [| split; [reflexivity | split; [exact Hkeys |]]].
  - unfold median_cluster_mch. rewrite Hkey, Hval.
    destruct gene_info as [|r l]; [now elim Hne|].
    rewrite groupby_groups. unfold groups_of, median_by_cluster, members.
    now rewrite map_map.
  - rewrite Hkeys.
    split; [apply (apart_NoDup scalar_eqb scalar_eqb_refl), distinct_apart|].
    split; [apply distinct_apart|].
    split; [| split; [| split; [| split]]].
    + intros c Hc. apply distinct_incl, filter_In in Hc. destruct Hc as [Hc Hna].
      split; [now apply negb_true_iff|].
      apply in_map_iff in Hc. destruct Hc as (r & Hr & Hin).
      exists r. split; [|exact Hr]. now apply (Permutation_in _ Hperm).
    + intros r Hr Hna.
      apply (distinct_rep scalar_eqb scalar_eqb_refl scalar_eqb_sym scalar_eqb_trans).
      apply filter_In. split; [|now rewrite Hna].
      apply in_map, (Permutation_in _ (Permutation_sym Hperm)), Hr.
    + unfold median_by_cluster. intros c m Hin.
      apply in_map_iff in Hin. destruct Hin as (c' & [= <- <-] & _).
      split; [reflexivity | now apply members_perm].
    + exact Hperm.
    + now apply sort_values_sorted.
Qed.

(** C5 on the example records: the median of 'Pv' averages 0.5 and 1.0 and
    skips the cell without data; 'Pv' comes first, as cluster 1. *)
Lemma median_cluster_mch_groups_witness :
  median_cluster_mch Example.world Example.records "normalized" "cluster_name"
  = Return [(Str "Pv", Example.three_quarters); (Str "L2/3", Example.zero)].
Proof.
  destruct (median_cluster_mch_groups Example.world Example.records
              "normalized" "cluster_name"
              (fun r => Str (cluster_name r)) normalized)
    as (series & Hret & Hspec & _).
  - apply example_argsort_sorts.
  - discriminate.
  - reflexivity.
  - reflexivity.
  - rewrite Hret, Hspec. vm_compute. reflexivity.
Defined.

(** Grouping on a column of numbers: the rows without a value are left
    out, and the level may be any column of numbers. *)
Example median_cluster_mch_by_number :
  median_cluster_mch Example.world Example.records "cluster_ordered" "normalized"
  = Return [(Num Example.one, Example.of_nat 1);
            (Num Example.half, Example.of_nat 1);
            (Num Example.zero, Example.of_nat 2)].
Proof. vm_compute. reflexivity. Qed.

(** ** The merged frame of a gene *)

Lemma filter_empty {A} (f : A -> bool) (l : list A) :
  filter f l = [] <-> forall x, In x l -> f x = false.
Proof.
  induction l as [|a l IH]; simpl; [tauto|].
  destruct (f a) eqn:E; split.
  - discriminate.
  - intros H. specialize (H a (or_introl eq_refl)). congruence.
  - intros H x [<- | Hx]; [exact E | now apply IH].
  - intros H. apply IH. auto.
Qed.

Lemma str_eqb_eq (s : string) (c : cell) : str_eqb s c = true <-> c = CStr s.
Proof.
  destruct c; simpl; try (split; discriminate).
  rewrite String.eqb_eq. split; congruence.
Qed.

Lemma str_eqb_neq (s : string) (c : cell) : str_eqb s c = false <-> c <> CStr s.
Proof.
  rewrite <- str_eqb_eq. destruct (str_eqb s c); split; congruence.
Qed.

Lemma left_join_rows (cluster : list cluster_point) (mch : list mch_row) (row : merged) :
  In row (left_join cluster mch) <-> left_join_row cluster mch row.
Proof.
  unfold left_join, left_join_row. rewrite in_flat_map. split.
  - intros (c & Hc & Hrow).
    destruct (filter (fun m => str_eqb (cp_samp c) (m_samp m)) mch) as [|m0 ms] eqn:E.
    + destruct Hrow as [<- | []]. split; [exact Hc|]. right. split; [|reflexivity].
      intros m Hm. apply str_eqb_neq.
      exact (proj1 (filter_empty _ mch) E m Hm).
    + apply in_map_iff in Hrow. destruct Hrow as (m & <- & Hm).
      rewrite <- E in Hm. apply filter_In in Hm. destruct Hm as [Hm Hs].
      split; [exact Hc|]. left. exists m. apply str_eqb_eq in Hs. auto.
  - intros (Hc & [(m & Hm & Hs & Hv) | (Hnone & Hv)]);
      exists (fst row); (split; [exact Hc|]).
    + assert (Hin : In m (filter (fun m => str_eqb (cp_samp (fst row)) (m_samp m)) mch)).
      { apply filter_In. split; [exact Hm|]. now apply str_eqb_eq. }
      destruct (filter _ mch) as [|m0 ms]; [contradiction|].
      apply in_map_iff. exists m. split; [|exact Hin].
      rewrite <- Hv. now destruct row.
    + assert (E : filter (fun m => str_eqb (cp_samp (fst row)) (m_samp m)) mch = []).
      { apply filter_empty. intros m Hm. apply str_eqb_neq. now apply Hnone. }
      rewrite E. left. rewrite <- Hv. now destruct row.
Qed.

(** *** Sorting on the codes of the categories *)

Lemma filter_length_le {A} (f g : A -> bool) (l : list A) :
  (forall y, f y = true -> g y = true) ->
  (List.length (filter f l) <= List.length (filter g l))%nat.
Proof.
  intros H. induction l as [|a l IH]; simpl; [lia|].
  destruct (f a) eqn:E.
  - rewrite (H a E). simpl. lia.
  - destruct (g a); simpl; lia.
Qed.

Lemma filter_length_lt {A} (f g : A -> bool) (l : list A) (x : A) :
  (forall y, f y = true -> g y = true) ->
  In x l -> f x = false -> g x = true ->
  (List.length (filter f l) < List.length (filter g l))%nat.
Proof.
  intros H Hin Hf Hg. induction l as [|a l IH]; simpl; [contradiction|].
  destruct Hin as [-> | Hin].
  - rewrite Hf, Hg. simpl. pose proof (filter_length_le f g l H). lia.
  - specialize (IH Hin). destruct (f a) eqn:E.
    + rewrite (H a E). simpl. lia.
    + destruct (g a); simpl; lia.
Qed.

(** The codes order the values as the values are ordered. *)
Lemma category_code_le (vals : list float) (a b : float) :
  In b vals -> Float64.is_nan a = false -> Float64.is_nan b = false ->
  category_code (distinct Float64.eqb vals) a
  <= category_code (distinct Float64.eqb vals) b ->
  Float64.leb a b = true.
Proof.
  intros Hin Ha Hb Hcode.
  destruct (Float64.leb a b) eqn:E; [reflexivity|]. exfalso.
  pose proof (Float64Facts.not_leb_ltb a b Ha Hb E) as Hlt.
  destruct (distinct_rep Float64.eqb Float64Facts.eqb_refl Float64Facts.eqb_sym
              Float64Facts.eqb_trans vals b Hin) as (c & Hc & Hbc).
  destruct (Float64Facts.eqb_ltb b c a Hbc Hlt) as [Hca Hcb].
  pose proof (filter_length_lt (fun x => Float64.ltb x b) (fun x => Float64.ltb x a)
                (distinct Float64.eqb vals) c) as H.
  unfold category_code in Hcode.
  assert ((List.length (filter (fun x => Float64.ltb x b) (distinct Float64.eqb vals))
           < List.length (filter (fun x => Float64.ltb x a) (distinct Float64.eqb vals)))%nat).
  { apply H; try assumption.
    intros y Hy. eapply Float64Facts.ltb_trans; eassumption. }
  lia.
Qed.

Lemma sort_values_category_perm (w : World) (l : list point) :
  argsort_codes_sorts w -> Permutation (sort_values_category w l) l.
Proof.
  intros Hw. unfold sort_values_category. eapply sort_rows_perm. apply Hw.
Qed.

Lemma sort_values_category_in (w : World) (l : list point) (r : point) :
  argsort_codes_sorts w -> In r (sort_values_category w l) <-> In r l.
Proof.
  intros Hw. split; apply Permutation_in;
    [| apply Permutation_sym]; now apply sort_values_category_perm.
Qed.

Lemma sort_values_category_sorted (w : World) (l : list point) :
  argsort_codes_sorts w -> Sorted ascending (sort_values_category w l).
Proof.
  intros Hw. unfold sort_values_category.
  eapply sort_rows_sorted; [apply Hw | |]; unfold ascending, no_order.
  - intros a b _ Hb Hna Hnb Hcode. unfold Float64.sort_le. rewrite Hna, Hnb. simpl.
    apply category_code_le in Hcode; try assumption.
    apply in_map, filter_In. unfold no_order. now rewrite Hnb.
  - intros a b Hnb. unfold Float64.sort_le. now rewrite Hnb.
Qed.

(** *** The paths through [get_gene_methylation] *)

Lemma get_gene_methylation_merged (w : World) (species methylationType : string)
    (gene : option string) (outliers : bool)
    (cluster : list cluster_point) (root : string) (dirs files : list string)
    (rest : list (string * list string * list string)) :
  species_exists w species = true ->
  gene_exists w species methylationType gene = PyBool true ->
  open_tsv w (tsne_path w species) = Some cluster ->
  cluster <> [] ->
  os_walk w (datasets_path w species) = (root, dirs, files) :: rest ->
  read_datasets w root methylationType (str_of gene) dirs <> [] ->
  let mch := List.concat (read_datasets w root methylationType (str_of gene) dirs) in
  get_gene_methylation w species methylationType gene outliers
  = match merge_left cluster mch with
    | Return joined =>
        ret (sort_values_category w (map (to_point w) (kept_rows w outliers joined)))
    | Raise e => raise e
    end.
Proof.
  unfold tsne_path, datasets_path. intros Es Eg Et Hc Ew Hr. cbv zeta.
  unfold get_gene_methylation, get_cluster_points.
  rewrite Es, Eg, Et, Ew. cbn [negb truthy orb]. unfold bind. cbn [ret result trace app].
  destruct (read_datasets w root methylationType (str_of gene) dirs) as [|df dfs];
    [now elim Hr|].
  destruct cluster as [|c cluster]; [now elim Hc|].
  unfold lift. cbn [result trace].
  destruct (merge_left _ _) as [joined|e]; [|reflexivity].
  unfold kept_rows. destruct outliers; reflexivity.
Qed.

Lemma get_gene_methylation_absent (w : World) (species methylationType : string)
    (gene : option string) (outliers : bool) :
  species_exists w species = false \/
  truthy (gene_exists w species methylationType gene) = false ->
  get_gene_methylation w species methylationType gene outliers = ret [].
Proof.
  unfold get_gene_methylation. intros [-> | ->]; [reflexivity|].
  now rewrite orb_true_r.
Qed.

(** C6 fails in the code.  For a species and a gene that exist, with
    cluster points and at least one methylation file that can be read:
    when the file names its samples by numbers, the merge of a key of
    strings with a key of numbers raises [ValueError]; otherwise
    [get_gene_methylation] returns rows of the left join of the cluster
    points with the methylation rows on the sample, sorted ascending on
    [cluster_ordered], and every record's sample is one of a cluster
    point.  With outliers these are all rows of the join, so a cluster
    point without methylation data appears with missing values.  Without
    outliers only the rows whose normalized value is strictly below the
    99th percentile are kept: this removes the rows at or above it, and
    against the claim it also removes every cluster point without
    methylation data, whose missing value is not at or above the
    percentile.  When the species or the gene does not exist, the result
    is the empty list. *)
Theorem get_gene_methylation_left_join
    (w : World) (species methylationType : string) (gene : option string)
    (outliers : bool) :
  (forall cluster root dirs files rest,
     species_exists w species = true ->
     gene_exists w species methylationType gene = PyBool true ->
     open_tsv w (tsne_path w species) = Some cluster ->
     cluster <> [] ->
     os_walk w (datasets_path w species) = (root, dirs, files) :: rest ->
     read_datasets w root methylationType (str_of gene) dirs <> [] ->
     let mch := List.concat (read_datasets w root methylationType (str_of gene) dirs) in
     let joined := left_join cluster mch in
     let q := quantile w (map merged_normalized joined) Float64.q99 in
     (dtype_of (map m_samp mch) = int64 \/ dtype_of (map m_samp mch) = float64 ->
      get_gene_methylation w species methylationType gene outliers = raise ValueError) /\
     (dtype_of (map m_samp mch) = object \/ dtype_of (map m_samp mch) = bool_ ->
      argsort_codes_sorts w ->
      exists records,
        get_gene_methylation w species methylationType gene outliers = ret records /\
        (forall row, In row joined <-> left_join_row cluster mch row) /\
        Permutation records (map (to_point w) (kept_rows w outliers joined)) /\
        Sorted ascending records /\
        (forall r, In r records -> In (samp r) (map cp_samp cluster)) /\
        (outliers = true ->
         (forall row, In row joined -> In (to_point w row) records) /\
         (forall c, In c cluster ->
            (forall m, In m mch -> m_samp m <> CStr (cp_samp c)) ->
            exists r, In r records /\ samp r = cp_samp c /\
                      original r = S754_nan /\ normalized r = S754_nan)) /\
        (outliers = false ->
         (forall row, In row joined ->
            Float64.ltb (merged_normalized row) q = true -> In (to_point w row) records) /\
         (forall r, In r records ->
            Float64.ltb (normalized r) q = true /\
            Float64.leb q (normalized r) = false /\
            Float64.is_nan (normalized r) = false) /\
         (forall c, In c cluster ->
            (forall m, In m mch -> m_samp m <> CStr (cp_samp c)) ->
            Float64.leb q S754_nan = false /\
            forall r, In r records -> samp r <> cp_samp c)))) /\
  (species_exists w species = false \/
   truthy (gene_exists w species methylationType gene) = false ->
   get_gene_methylation w species methylationType gene outliers = ret []).
Proof.
  split; [| apply get_gene_methylation_absent].
  intros cluster root dirs files rest Es Eg Et Hc Ew Hr. cbv zeta.
  set (mch := List.concat (read_datasets w root methylationType (str_of gene) dirs)).
  set (joined := left_join cluster mch).
  pose proof (get_gene_methylation_merged w species methylationType gene outliers
                cluster root dirs files rest Es Eg Et Hc Ew Hr) as Hrun.
  cbv zeta in Hrun. fold mch in Hrun. unfold merge_left in Hrun.
  split.
  { intros [Hd | Hd]; rewrite Hd in Hrun; exact Hrun. }
  intros Hd Hw.
  assert (Hret : get_gene_methylation w species methylationType gene outliers
                 = ret (sort_values_category w
                          (map (to_point w) (kept_rows w outliers joined)))).
  { destruct Hd as [Hd | Hd]; rewrite Hd in Hrun; exact Hrun. }
  eexists. split; [exact Hret|].
  assert (Hin : forall r,
             In r (sort_values_category w
                     (map (to_point w) (kept_rows w outliers joined)))
             <-> exists row, In row (kept_rows w outliers joined) /\
                             r = to_point w row).
  { intros r. rewrite (sort_values_category_in w _ r Hw), in_map_iff.
    split; intros (row & H1 & H2); eauto. }
  assert (Hkept : forall row, In row (kept_rows w outliers joined) -> In row joined).
  { unfold kept_rows. destruct outliers; [auto|]. intros row H.
    now apply filter_In in H. }
  split; [intros row; apply left_join_rows|].
  split; [now apply sort_values_category_perm|].
  split; [now apply sort_values_category_sorted|].
  split; [| split].
  - intros r Hr'. apply Hin in Hr'. destruct Hr' as (row & Hrow & ->).
    apply Hkept, left_join_rows in Hrow. destruct Hrow as [Hrow _].
    apply in_map_iff. exists (fst row). split; [reflexivity | exact Hrow].
  - intros ->. split.
    + intros row Hrow. apply Hin. exists row. split; [exact Hrow | reflexivity].
    + intros c Hcin Hnone. exists (to_point w (c, (S754_nan, S754_nan))).
      split; [| repeat split].
      apply Hin. eexists. split; [|reflexivity].
      apply left_join_rows. split; [exact Hcin|]. right. split; [exact Hnone | reflexivity].
  - intros ->. split; [| split].
    + intros row Hrow Hlt. apply Hin. exists row. split; [|reflexivity].
      apply filter_In. split; assumption.
    + intros r Hr'. apply Hin in Hr'. destruct Hr' as (row & Hrow & ->).
      apply filter_In in Hrow. destruct Hrow as [_ Hlt].
      change (normalized (to_point w row)) with (merged_normalized row).
      fold joined in Hlt.
      split; [exact Hlt|]. split.
      * unfold Float64.ltb, SFltb in Hlt.
        destruct (SFcompare (merged_normalized row) _) as [[]|] eqn:E; try discriminate.
        destruct (Float64.leb _ (merged_normalized row)) eqn:El; [|reflexivity].
        apply Float64Facts.leb_not_ltb in El.
        unfold Float64.ltb, SFltb in El. rewrite E in El. discriminate.
      * destruct (merged_normalized row); try reflexivity. discriminate.
    + intros c Hcin Hnone.
      split; [apply Float64Facts.nan_incomparable|].
      intros r Hr' Hsamp. apply Hin in Hr'. destruct Hr' as (row & Hrow & ->).
      apply filter_In in Hrow. destruct Hrow as [Hrow Hlt].
      apply left_join_rows in Hrow.
      destruct Hrow as [_ [(m & Hm & Hs & _) | (_ & Hv)]].
      * apply (Hnone m Hm). rewrite Hs. f_equal. exact Hsamp.
      * unfold merged_normalized in Hlt. rewrite Hv in Hlt. discriminate.
Qed.

(** C6 on the example world.  With outliers the three cells come back,
    'cell_2' with missing values.  Without outliers 'cell_2', which has no
    methylation data, is not among the records, although its missing
    value is not at or above the percentile.  In the world whose
    methylation file names the cells by numbers the call raises
    [ValueError]. *)
Lemma get_gene_methylation_left_join_witness :
  (exists records,
     get_gene_methylation Example.world "mouse_published" "mch"
       (Some Example.gapdh) true = ret records /\
     Sorted ascending records /\
     map samp records = ["cell_2"; "cell_3"; "cell_1"]) /\
  (exists records,
     get_gene_methylation Example.world "mouse_published" "mch"
       (Some Example.gapdh) false = ret records /\
     In "cell_2" (map cp_samp Example.cluster) /\
     (forall r, In r records -> samp r <> "cell_2") /\
     Float64.leb (quantile Example.world
                    (map merged_normalized
                         (left_join Example.cluster Example.methylation))
                    Float64.q99) S754_nan = false) /\
  get_gene_methylation Example.numbered "mouse_published" "mch"
    (Some Example.gapdh) true = raise ValueError /\
  get_gene_methylation Example.world "rat" "mch" (Some Example.gapdh) true = ret [].
Proof.
  assert (Hwalk : forall file,
            os_walk (Example.world_with Example.databases file)
              (datasets_path (Example.world_with Example.databases file) "mouse_published")
            = [("/data/ensembles/mouse_published/datasets",
                ["CEMBA_3A"; "CEMBA_3C"], [])]) by reflexivity.
  assert (Hnot_nil : forall A (x : A) (l : list A), x :: l <> []) by discriminate.
  split; [| split; [| split]].
  - destruct (proj1 (get_gene_methylation_left_join Example.world "mouse_published"
                       "mch" (Some Example.gapdh) true)
                Example.cluster "/data/ensembles/mouse_published/datasets"
                ["CEMBA_3A"; "CEMBA_3C"] [] []
                eq_refl eq_refl eq_refl (Hnot_nil _ _ _) (Hwalk _) (Hnot_nil _ _ _))
      as [_ Hjoin].
    destruct (Hjoin (or_introl eq_refl) (example_argsort_codes_sorts _ _))
      as (records & Hret & _ & _ & Hsorted & _).
    exists records. split; [exact Hret|]. split; [exact Hsorted|].
    assert (E : result (get_gene_methylation Example.world "mouse_published" "mch"
                          (Some Example.gapdh) true) = Return records)
      by now rewrite Hret.
    vm_compute in E. injection E as <-. reflexivity.
  - destruct (proj1 (get_gene_methylation_left_join Example.world "mouse_published"
                       "mch" (Some Example.gapdh) false)
                Example.cluster "/data/ensembles/mouse_published/datasets"
                ["CEMBA_3A"; "CEMBA_3C"] [] []
                eq_refl eq_refl eq_refl (Hnot_nil _ _ _) (Hwalk _) (Hnot_nil _ _ _))
      as [_ Hjoin].
    destruct (Hjoin (or_introl eq_refl) (example_argsort_codes_sorts _ _))
      as (records & Hret & _ & _ & _ & _ & _ & Hwithout).
    destruct (Hwithout eq_refl) as (_ & _ & Hmissing).
    destruct (Hmissing (ClusterPoint "cell_2" "0.1" "0.2" "cluster_1" "Pv" "1" "inh"))
      as [Hq Hnone].
    + right. left. reflexivity.
    + intros m [<- | [<- | []]]; discriminate.
    + exists records. split; [exact Hret|].
      split; [right; left; reflexivity|]. split; [exact Hnone | exact Hq].
  - apply (proj1 (proj1 (get_gene_methylation_left_join Example.numbered
                           "mouse_published" "mch" (Some Example.gapdh) true)
                    Example.cluster "/data/ensembles/mouse_published/datasets"
                    ["CEMBA_3A"; "CEMBA_3C"] [] []
                    eq_refl eq_refl eq_refl (Hnot_nil _ _ _) (Hwalk _) (Hnot_nil _ _ _))).
    left. reflexivity.
  - apply (proj2 (get_gene_methylation_left_join Example.world "rat" "mch"
                    (Some Example.gapdh) true)).
    left. reflexivity.
Defined.

(** The records of the failing call: of the three cells only 'cell_1' is
    left, and the records are not those of a call that removes only the
    rows at or above the percentile. *)
Example get_gene_methylation_drops_missing :
  exists records,
    get_gene_methylation Example.world "mouse_published" "mch"
      (Some Example.gapdh) false = ret records /\
    map samp records = ["cell_1"] /\
    ~ removes_only_outliers Example.world Example.cluster Example.methylation records.
Proof.
  eexists. split; [vm_compute; reflexivity|]. split; [reflexivity|].
  unfold removes_only_outliers. intros H.
  specialize (H (ClusterPoint "cell_2" "0.1" "0.2" "cluster_1" "Pv" "1" "inh",
                 (S754_nan, S754_nan))).
  assert (Hin : In (to_point Example.world
                      (ClusterPoint "cell_2" "0.1" "0.2" "cluster_1" "Pv" "1" "inh",
                       (S754_nan, S754_nan)))
                   [Point "cell_1" "0.5" "1.5" "cluster_2" "L2/3" (Example.of_nat 2)
                          "exc" Example.zero Example.zero]).
  { apply H.
    - vm_compute. right. left. reflexivity.
    - vm_compute. reflexivity. }
  destruct Hin as [Hin | []]. vm_compute in Hin. discriminate.
Qed.
